(** * RISC-V UDB to LLVM TableGen converter: a shallow embedding of convert.py

    The converter reads one decoded YAML document per file (a dynamically
    typed value), classifies an instruction's encoding family, extracts the
    encoding fields, parses the assembly string into operand lists and renders
    a TableGen block.  Every Python function of the script is embedded as a
    Rocq function of the same name.  Exceptions of the interpreter are made
    explicit in the [result] monad; printing is made explicit as a list of
    lines.

    Scope of the model.  Text is ASCII: one [ascii] per character.  A decoded
    document is built from null, booleans, integers, strings, sequences and
    mappings with string keys (floats, dates, binary values and non-string
    keys are not covered). *)

From Stdlib Require Import ZArith Ascii DecimalString.
From stdpp Require Import gmap strings list fin_maps.

Local Open Scope Z_scope.
Local Open Scope nat_scope.

(** ** Characters and string constants that a literal cannot hold *)

Definition chr (n : nat) : ascii := ascii_of_nat n.
Definition ord (c : ascii) : nat := nat_of_ascii c.

(** The newline, the double quote and the single quote. *)
Definition nl : string := String (chr 10) EmptyString.
Definition dq : string := String (chr 34) EmptyString.
Definition sq : string := String (chr 39) EmptyString.

(** ** Methods of Python's [str] *)

Module Str.

Fixpoint concat (l : list string) : string :=
  match l with
  | [] => EmptyString
  | s :: r => s +:+ concat r
  end.

(** [sep.join(l)] *)
Fixpoint join (sep : string) (l : list string) : string :=
  match l with
  | [] => EmptyString
  | [s] => s
  | s :: r => s +:+ sep +:+ join sep r
  end.

(** [s.startswith(p)] *)
Definition startswith (s p : string) : bool := String.prefix p s.

(** [needle in hay], for a needle that is not empty *)
Fixpoint contains (needle hay : string) : bool :=
  String.prefix needle hay ||
  match hay with
  | EmptyString => false
  | String _ t => contains needle t
  end.

Definition map_chars (f : ascii → ascii) : string → string :=
  fix go s :=
    match s with
    | EmptyString => EmptyString
    | String c t => String (f c) (go t)
    end.

Definition lower_char (c : ascii) : ascii :=
  if (65 <=? ord c) && (ord c <=? 90) then chr (ord c + 32) else c.
Definition upper_char (c : ascii) : ascii :=
  if (97 <=? ord c) && (ord c <=? 122) then chr (ord c - 32) else c.

(** [s.lower()] and [s.upper()], on ASCII text *)
Definition lower : string → string := map_chars lower_char.
Definition upper : string → string := map_chars upper_char.

(** [s.capitalize()]: first character upper case, the rest lower case *)
Definition capitalize (s : string) : string :=
  match s with
  | EmptyString => EmptyString
  | String c t => String (upper_char c) (lower t)
  end.

Definition is_digit (c : ascii) : bool := (48 <=? ord c) && (ord c <=? 57).

Fixpoint all_chars (p : ascii → bool) (s : string) : bool :=
  match s with
  | EmptyString => true
  | String c t => p c && all_chars p t
  end.

(** [s.isdigit()]: at least one character, and all of them digits *)
Definition isdigit (s : string) : bool :=
  match s with
  | EmptyString => false
  | _ => all_chars is_digit s
  end.

(** White space as [str.strip()] sees it: tab to carriage return, the four
    separators 28 to 31, and the blank. *)
Definition is_space (c : ascii) : bool :=
  ((9 <=? ord c) && (ord c <=? 13)) || ((28 <=? ord c) && (ord c <=? 32)).

Fixpoint lstrip (s : string) : string :=
  match s with
  | EmptyString => EmptyString
  | String c t => if is_space c then lstrip t else s
  end.

Fixpoint rstrip (s : string) : string :=
  match s with
  | EmptyString => EmptyString
  | String c t =>
      match rstrip t with
      | EmptyString => if is_space c then EmptyString else String c EmptyString
      | r => String c r
      end
  end.

(** [s.strip()] *)
Definition strip (s : string) : string := rstrip (lstrip s).

(** [s.replace(old, new)] for a pattern [old] that is not empty: the
    occurrences are replaced from left to right, without overlap.  [skip]
    counts the characters of a matched occurrence still to be dropped. *)
Fixpoint replace_go (old new : string) (skip : nat) (s : string) : string :=
  match s with
  | EmptyString => EmptyString
  | String c t =>
      match skip with
      | S k => replace_go old new k t
      | O =>
          if String.prefix old s
          then new +:+ replace_go old new (String.length old - 1) t
          else String c (replace_go old new 0 t)
      end
  end.
Definition replace (s old new : string) : string := replace_go old new 0 s.

(** [s.split(sep)] for a separator that is not empty; the result always
    has at least one field. *)
Fixpoint split_go (sep : string) (skip : nat) (s : string) : list string :=
  match s with
  | EmptyString => [EmptyString]
  | String c t =>
      match skip with
      | S k => split_go sep k t
      | O =>
          if String.prefix sep s
          then EmptyString :: split_go sep (String.length sep - 1) t
          else match split_go sep 0 t with
               | h :: r => String c h :: r
               | [] => [String c EmptyString]
               end
      end
  end.
Definition split (s sep : string) : list string := split_go sep 0 s.

(** [s[:n]] *)
Fixpoint take (n : nat) (s : string) : string :=
  match n, s with
  | S k, String c t => String c (take k t)
  | _, _ => EmptyString
  end.

End Str.

(** ** Decoded documents: the values [yaml.safe_load] hands over *)

#[warnings="-register-all"]
Inductive value : Type :=
| VNone
| VBool (b : bool)
| VInt (z : Z)
| VStr (s : string)
| VList (l : list value)
| VDict (d : list (string * value)).

(** A mapping keeps its entries in insertion order; a key occurs once. *)
Abbreviation dict := (list (string * value)).

Fixpoint dict_get (k : string) (d : dict) : option value :=
  match d with
  | [] => None
  | (k', v) :: r => if String.eqb k k' then Some v else dict_get k r
  end.

Definition dict_has (k : string) (d : dict) : bool :=
  match dict_get k d with Some _ => true | None => false end.

(** ** Exceptions *)

Inductive exn : Type := TypeError | KeyError | IndexError | AttributeError.

Inductive result (A : Type) : Type :=
| Ok (a : A)
| Raise (e : exn).
Arguments Ok {A} a.
Arguments Raise {A} e.

#[export] Instance result_ret : MRet result := λ A a, Ok a.
#[export] Instance result_bind : MBind result := λ A B f m,
  match m with
  | Ok a => f a
  | Raise e => Raise e
  end.

#[export] Instance result_fmap : FMap result := λ A B f m,
  match m with
  | Ok a => Ok (f a)
  | Raise e => Raise e
  end.

(** ** Operations of the interpreter on dynamically typed values *)

(** [bool(v)] *)
Definition truthy (v : value) : bool :=
  match v with
  | VNone => false
  | VBool b => b
  | VInt z => negb (z =? 0)%Z
  | VStr s => negb (String.eqb s EmptyString)
  | VList l => match l with [] => false | _ => true end
  | VDict d => match d with [] => false | _ => true end
  end.

(** [v == s] for a string constant [s] *)
Definition eq_str (v : value) (s : string) : bool :=
  match v with
  | VStr t => String.eqb t s
  | _ => false
  end.

(** [k in v] for a string constant [k]: a substring test on a string, a
    membership test on a sequence, a key test on a mapping; the other types
    are not containers. *)
Definition py_in (k : string) (v : value) : result bool :=
  match v with
  | VStr s => Ok (Str.contains k s)
  | VList l => Ok (existsb (λ x, eq_str x k) l)
  | VDict d => Ok (dict_has k d)
  | _ => Raise TypeError
  end.

(** [v[k]] for a string constant [k] *)
Definition py_getitem (v : value) (k : string) : result value :=
  match v with
  | VDict d =>
      match dict_get k d with
      | Some x => Ok x
      | None => Raise KeyError
      end
  | _ => Raise TypeError
  end.

(** [v.get(k, default)] *)
Definition py_get (v : value) (k : string) (dflt : value) : result value :=
  match v with
  | VDict d => Ok (match dict_get k d with Some x => x | None => dflt end)
  | _ => Raise AttributeError
  end.

Definition is_dict (v : value) : bool :=
  match v with VDict _ => true | _ => false end.

(** [v.strip()], [v.replace(old, new)], [v.split(sep)] and [v.upper()]:
    only a string has these methods. *)
Definition py_strip (v : value) : result string :=
  match v with VStr s => Ok (Str.strip s) | _ => Raise AttributeError end.
Definition py_replace (v : value) (old new : string) : result string :=
  match v with VStr s => Ok (Str.replace s old new) | _ => Raise AttributeError end.
Definition py_split (v : value) (sep : string) : result (list string) :=
  match v with VStr s => Ok (Str.split s sep) | _ => Raise AttributeError end.
Definition py_upper (v : value) : result string :=
  match v with VStr s => Ok (Str.upper s) | _ => Raise AttributeError end.

(** [for x in v]: the elements of a sequence, the characters of a string,
    the keys of a mapping. *)
Definition chars (s : string) : list value :=
  (fix go s :=
     match s with
     | EmptyString => []
     | String c t => VStr (String c EmptyString) :: go t
     end) s.
Definition py_iter (v : value) : result (list value) :=
  match v with
  | VList l => Ok l
  | VStr s => Ok (chars s)
  | VDict d => Ok (map (λ kv, VStr kv.1) d)
  | _ => Raise TypeError
  end.

(** ** [str(v)] and [repr(v)], as an f-string formats a value *)

Definition hex_digit (n : nat) : ascii :=
  if n <? 10 then chr (48 + n) else chr (87 + n).

Definition backslash : ascii := chr 92.

Definition escape_char (quote c : ascii) : string :=
  if Ascii.eqb c quote || Ascii.eqb c backslash then String backslash (String c EmptyString)
  else if ord c =? 9 then String backslash "t"
  else if ord c =? 10 then String backslash "n"
  else if ord c =? 13 then String backslash "r"
  else if (ord c <? 32) || (ord c =? 127)
       then String backslash
              (String "x" (String (hex_digit (ord c / 16))
                                  (String (hex_digit (ord c mod 16)) EmptyString)))
  else String c EmptyString.

Fixpoint escape (quote : ascii) (s : string) : string :=
  match s with
  | EmptyString => EmptyString
  | String c t => escape_char quote c +:+ escape quote t
  end.

(** [repr(s)]: single quotes, unless the text has a single quote and no
    double quote. *)
Definition repr_str (s : string) : string :=
  let quote := if Str.contains sq s && negb (Str.contains dq s) then chr 34 else chr 39 in
  String quote (escape quote s +:+ String quote EmptyString).

Definition str_of_Z (z : Z) : string := NilZero.string_of_int (Z.to_int z).

Fixpoint py_repr (v : value) : string :=
  match v with
  | VNone => "None"
  | VBool true => "True"
  | VBool false => "False"
  | VInt z => str_of_Z z
  | VStr s => repr_str s
  | VList l => "[" +:+ Str.join ", " (map py_repr l) +:+ "]"
  | VDict d =>
      "{" +:+ Str.join ", " (map (λ kv, repr_str kv.1 +:+ ": " +:+ py_repr kv.2) d) +:+ "}"
  end.

Definition py_str (v : value) : string :=
  match v with
  | VStr s => s
  | _ => py_repr v
  end.

(** ** Encoding families *)

Inductive family : Type := FR | FI | FS | FB | FU | FJ | FC | FV.

#[export] Instance family_eq_dec : EqDecision family.
Proof. solve_decision. Defined.

(** The text the code uses for a family: ['R'], ['I'], ... *)
Definition family_str (f : family) : string :=
  match f with
  | FR => "R" | FI => "I" | FS => "S" | FB => "B"
  | FU => "U" | FJ => "J" | FC => "C" | FV => "V"
  end.

(** ** [extract_encoding_info] *)

(** The encoding built by the code is only read by key: a finite map. *)
Abbreviation encoding_map := (gmap string value).

Fixpoint foldM {A B} (f : B → A → result B) (b : B) (l : list A) : result B :=
  match l with
  | [] => Ok b
  | a :: r => b' ← f b a; foldM f b' r
  end.

(** The body of the loop over the five field names. *)
Definition extract_field (opcodes : value) (encoding : encoding_map) (field : string)
  : result encoding_map :=
  present ← py_in field opcodes;
  if present : bool then
    x ← py_getitem opcodes field;
    match x with
    | VDict d =>
        if dict_has "value" d
        then v ← py_getitem x "value"; Ok (<[field := v]> encoding)
        else Ok encoding
    | VStr _ => Ok (<[field := x]> encoding)
    | _ => Ok encoding
    end
  else Ok encoding.

Definition extract_encoding_info (format_data : value) : result encoding_map :=
  has_opcodes ← py_in "opcodes" format_data;
  encoding ← (if has_opcodes : bool then
                opcodes ← py_getitem format_data "opcodes";
                foldM (extract_field opcodes) ∅
                      ["funct7"; "funct3"; "funct6"; "funct2"; "opcode"]
              else Ok ∅);
  has_encoding ← py_in "encoding" format_data;
  if has_encoding : bool then
    enc_data ← py_getitem format_data "encoding";
    has_match ← py_in "match" enc_data;
    encoding ← (if has_match : bool then
                  m ← py_getitem enc_data "match"; Ok (<["match" := m]> encoding)
                else Ok encoding);
    has_variables ← py_in "variables" enc_data;
    if has_variables : bool then
      vs ← py_getitem enc_data "variables"; Ok (<["variables" := vs]> encoding)
    else Ok encoding
  else Ok encoding.

(** ** [get_instruction_format] *)

(** ['/X/' in inherit_path or 'X-' in inherit_path] *)
Definition has_marker (a b : string) (inherit_path : value) : result bool :=
  x ← py_in a inherit_path;
  if x : bool then Ok true else py_in b inherit_path.

(** The chain of tests on the inheritance reference; [None] when the chain
    falls through to the rest of the function. *)
Definition inherit_chain (inherit_path : value) : result (option family) :=
  r ← has_marker "/R/" "R-" inherit_path;
  if r : bool then Ok (Some FR) else
  i ← has_marker "/I/" "I-" inherit_path;
  if i : bool then Ok (Some FI) else
  s ← has_marker "/S/" "S-" inherit_path;
  if s : bool then Ok (Some FS) else
  b ← has_marker "/B/" "B-" inherit_path;
  if b : bool then Ok (Some FB) else
  u ← has_marker "/U/" "U-" inherit_path;
  if u : bool then Ok (Some FU) else
  j ← has_marker "/J/" "J-" inherit_path;
  if j : bool then Ok (Some FJ) else Ok None.

(** The block guarded by ['$inherits' in format_data]. *)
Definition inherit_family (format_data : value) : result (option family) :=
  has ← py_in "$inherits" format_data;
  if has : bool then
    inh ← py_getitem format_data "$inherits";
    inherit_path ← match inh with
                   | VList [] => Raise IndexError
                   | VList (x :: _) => Ok x
                   | _ => Ok inh
                   end;
    inherit_chain inherit_path
  else Ok None.

(** The block guarded by ['encoding' in udb_data]: does it return ['C']? *)
Definition match_is_compressed (udb_data : value) : result bool :=
  has ← py_in "encoding" udb_data;
  if has : bool then
    enc ← py_getitem udb_data "encoding";
    has_match ← py_in "match" enc;
    if has_match : bool then
      match_pattern ← py_getitem enc "match";
      stripped ← py_replace match_pattern "-" EmptyString;
      Ok (String.length stripped =? 16)
    else Ok false
  else Ok false.

Definition get_instruction_format (udb_data : value) : result family :=
  format_data ← py_get udb_data "format" (VDict []);
  inherited ← inherit_family format_data;
  match inherited with
  | Some f => Ok f
  | None =>
      c ← match_is_compressed udb_data;
      if c : bool then Ok FC else
      assembly ← py_get udb_data "assembly" (VStr EmptyString);
      vm ← py_in "vm" assembly;
      if vm : bool then
        vs1 ← py_in "vs1" assembly;
        if vs1 : bool then Ok FV else
        vs2 ← py_in "vs2" assembly;
        if vs2 : bool then Ok FV else Ok FR
      else Ok FR
  end.

(** ** [parse_assembly_operands] *)

(** [part in [...]] for a list of string constants *)
Definition str_mem (s : string) (l : list string) : bool := existsb (String.eqb s) l.

(** The operand lists under construction: [(output, inp)]. *)
Abbreviation operands := (list string * list string)%type.

(** The immediate operand of a family (the innermost chain of tests). *)
Definition imm_operand (inst_for : family) : string :=
  match inst_for with
  | FI => "simm12:$imm"
  | FS => "simm12:$imm"
  | FB => "simm13_lsb0:$imm"
  | FU => "uimm20:$imm"
  | FJ => "simm21_lsb0:$imm"
  | _ => "simm12:$imm"
  end.

(** The body of the loop over the tokens. *)
Definition operand_step (inst_for : family) (acc : operands) (part : string) : operands :=
  let '(output, inp) := acc in
  if Str.startswith part "v" && bool_decide (inst_for = FV) then
    if String.eqb part "vd" then (output ++ ["VR:$vd"], inp)
    else if Str.startswith part "vs" then (output, inp ++ ["VR:$" +:+ part])
    else if String.eqb part "vm" then (output, inp ++ ["VMaskOp:$vm"])
    else (output, inp)
  else if Str.startswith part "x" || str_mem part ["rd"; "rs1"; "rs2"; "xs1"; "xd"] then
    if str_mem part ["xd"; "rd"] then (output ++ ["GPR:$rd"], inp)
    else if str_mem part ["xs1"; "rs1"] then (output, inp ++ ["GPR:$rs1"])
    else if str_mem part ["xs2"; "rs2"] then (output, inp ++ ["GPR:$rs2"])
    else (output, inp ++ ["GPR:$" +:+ part])
  else if Str.contains "imm" (Str.lower part) || Str.isdigit part then
    (output, inp ++ [imm_operand inst_for])
  else (output, inp).

Definition parse_assembly_operands (assembly_str : value) (inst_for : family)
  : result operands :=
  if negb (truthy assembly_str) then Ok ([], []) else
  fields ← py_split assembly_str ",";
  let parts := map Str.strip fields in
  Ok (fold_left (operand_step inst_for) parts ([], [])).

(** ** [convert_instruction] *)

(** Lines 118 to 122: the encoding of the format section, updated with the
    encoding of the top-level section. [dict.update] lets the entries of its
    argument win: a union that prefers the top-level map. *)
Definition merged_encoding (udb_data : value) : result encoding_map :=
  format_data ← py_get udb_data "format" (VDict []);
  encoding ← extract_encoding_info format_data;
  has ← py_in "encoding" udb_data;
  if has : bool then
    top ← py_getitem udb_data "encoding";
    update ← extract_encoding_info (VDict [("encoding", top)]);
    Ok (update ∪ encoding)
  else Ok encoding.

(** Lines 126 to 135: the operands substituted when parsing gave none. *)
Definition default_operands (inst_for : family) (acc : operands) : operands :=
  let '(output, inp) := acc in
  if bool_decide (output = []) && bool_decide (inp = []) then
    let output := if bool_decide (inst_for ∈ [FR; FI; FU; FJ])
                  then ["GPR:$rd"] else output in
    if bool_decide (inst_for = FR) then (output, ["GPR:$rs1"; "GPR:$rs2"])
    else if bool_decide (inst_for = FI) then (output, ["GPR:$rs1"; "simm12:$imm"])
    else if bool_decide (inst_for ∈ [FS; FB])
         then ([], ["GPR:$rs1"; "GPR:$rs2"; "simm12:$imm"])
    else (output, inp)
  else (output, inp).

(** [f"${op.split(':$')[1]}"] *)
Definition asm_name (op : string) : result string :=
  match Str.split op ":$" with
  | _ :: x :: _ => Ok ("$" +:+ x)
  | _ => Raise IndexError
  end.

Fixpoint mapM {A B} (f : A → result B) (l : list A) : result (list B) :=
  match l with
  | [] => Ok []
  | a :: r => b ← f a; bs ← mapM f r; Ok (b :: bs)
  end.

(** Lines 152 to 156: the constraint of one opcode field. *)
Definition field_constraint (encoding : encoding_map) (field : string) : list string :=
  match encoding !! field with
  | Some (VStr value) =>
      if Str.startswith value "0b"
      then ["  let " +:+ Str.capitalize field +:+ " = " +:+ value +:+ ";"]
      else []
  | _ => []
  end.

(** Lines 159 to 163: the comment of one variable. *)
Definition variable_constraint (var : value) : result (list string) :=
  var_name ← py_get var "name" (VStr EmptyString);
  location ← py_get var "location" (VStr EmptyString);
  if truthy var_name && truthy location
  then Ok ["  // Variable " +:+ py_str var_name +:+ " at bits " +:+ py_str location]
  else Ok [].

(** Lines 147 to 165. *)
Definition constraint_lines (encoding : encoding_map) : result (list string) :=
  let pattern :=
    match encoding !! "match" with
    | Some m => ["  let EncodingPattern = " +:+ dq +:+ py_str m +:+ dq +:+ ";"]
    | None => []
    end in
  let fields :=
    flat_map (field_constraint encoding) ["opcode"; "funct3"; "funct7"; "funct6"; "funct2"] in
  variables ← match encoding !! "variables" with
              | Some vs => vars ← py_iter vs; ls ← mapM variable_constraint vars; Ok (concat ls)
              | None => Ok []
              end;
  Ok (pattern ++ fields ++ variables).

(** Lines 167 to 169, shared by the instruction and the register renderer. *)
Definition clean_description (description : string) : string :=
  Str.strip (Str.replace (Str.replace description nl " ") "  " " ").

Definition truncate_description (desc_clean : string) : string :=
  if 100 <? String.length desc_clean then Str.take 97 desc_clean +:+ "..." else desc_clean.

(** [name.upper().replace('.', '_').replace('-', '_')] *)
Definition tablegen_name (name : value) : result string :=
  up ← py_upper name;
  Ok (Str.replace (Str.replace up "." "_") "-" "_").

(** The f-string returned by [convert_instruction]. *)
Definition instruction_block
    (tablegen_name outputs_str inputs_str name asm_format long_name desc_clean
     inst_for constraint_str : string) : string :=
  nl +:+ "def " +:+ tablegen_name +:+ " : RISCVInst<" +:+ nl +:+
  "    (outs " +:+ outputs_str +:+ ")," +:+ nl +:+
  "    (ins " +:+ inputs_str +:+ ")," +:+ nl +:+
  "    " +:+ dq +:+ name +:+ dq +:+ ", " +:+ dq +:+ asm_format +:+ dq +:+ "," +:+ nl +:+
  "    []> {" +:+ nl +:+
  "  // " +:+ long_name +:+ ": " +:+ desc_clean +:+ nl +:+
  "  let Format = " +:+ inst_for +:+ "Format;" +:+ constraint_str +:+ nl +:+
  "}".

Definition convert_instruction (udb_data : value) : result string :=
  name ← py_get udb_data "name" (VStr "unknown");
  long_name ← py_get udb_data "long_name" name;
  description ← py_get udb_data "description" (VStr EmptyString) ≫= py_strip;
  assembly ← py_get udb_data "assembly" (VStr EmptyString);
  inst_for ← get_instruction_format udb_data;
  encoding ← merged_encoding udb_data;
  parsed ← parse_assembly_operands assembly inst_for;
  let '(output, inp) := default_operands inst_for parsed in
  let outputs_str := Str.join ", " output in
  let inputs_str := Str.join ", " inp in
  out_parts ← mapM asm_name output;
  in_parts ← mapM asm_name inp;
  let asm_format := Str.join ", " (out_parts ++ in_parts) in
  constraints ← constraint_lines encoding;
  let constraint_str :=
    match constraints with
    | [] => EmptyString
    | _ => nl +:+ Str.join nl constraints
    end in
  let desc_clean := truncate_description (clean_description description) in
  tablegen_name ← tablegen_name name;
  Ok (instruction_block tablegen_name outputs_str inputs_str (py_str name) asm_format
        (py_str long_name) desc_clean (family_str inst_for) constraint_str).

(** ** [convert_csr] and [convert_extension] *)

Definition convert_csr (udb_data : value) : result string :=
  name ← py_get udb_data "name" (VStr "unknown");
  long_name ← py_get udb_data "long_name" name;
  address ← py_get udb_data "address" (VStr "0x000");
  description ← py_get udb_data "description" (VStr EmptyString) ≫= py_strip;
  let desc_clean := truncate_description (clean_description description) in
  tablegen_name ← tablegen_name name;
  Ok (nl +:+ "def " +:+ tablegen_name +:+ " : RISCVReg<" +:+ py_str address +:+ ", " +:+
      dq +:+ py_str name +:+ dq +:+ "> {" +:+ nl +:+
      "  // " +:+ py_str long_name +:+ ": " +:+ desc_clean +:+ nl +:+
      "}").

Definition banner : string :=
  "//===----------------------------------------------------------------------===//".

Definition convert_extension (udb_data : value) : result string :=
  name ← py_get udb_data "name" (VStr "unknown");
  long_name ← py_get udb_data "long_name" name;
  description ← py_get udb_data "description" (VStr EmptyString) ≫= py_strip;
  let desc_clean := clean_description description in
  Ok (nl +:+ banner +:+ nl +:+
      "// Extension: " +:+ py_str name +:+ " - " +:+ py_str long_name +:+ nl +:+
      "// " +:+ desc_clean +:+ nl +:+
      banner +:+ nl).

(** ** Printing: a computation also yields the lines it printed *)

Definition io (A : Type) : Type := list string * result A.

#[export] Instance io_ret : MRet io := λ A a, ([], Ok a).
#[export] Instance io_bind : MBind io := λ A B f m,
  match m.2 with
  | Ok a => (m.1 ++ (f a).1, (f a).2)
  | Raise e => (m.1, Raise e)
  end.

Definition print (line : string) : io unit := ([line], Ok tt).
Definition lift {A} (m : result A) : io A := ([], m).
Definition returns {A} (a : A) : io A := mret a.

Fixpoint io_foldM {A B} (f : B → A → io B) (b : B) (l : list A) : io B :=
  match l with
  | [] => returns b
  | a :: r => b' ← f b a; io_foldM f b' r
  end.

(** ** [process_udb_file] *)

(** What [yaml.safe_load] does with the text of a file: it fails with a
    message, or hands over the decoded document. *)
Inductive loaded : Type :=
| YAMLError (msg : string)
| Document (udb_data : value).

(** An input file: its path as printed, its last component, its content. *)
Record yaml_file : Type := {
  file_path : string;
  file_name : string;
  file_load : loaded;
}.

Definition process_udb_file (input_file : yaml_file) : io (option string) :=
  match file_load input_file with
  | YAMLError e =>
      _ ← print ("Error parsing " +:+ file_path input_file +:+ ": " +:+ e);
      returns None
  | Document udb_data =>
      if negb (truthy udb_data) || negb (is_dict udb_data) then
        _ ← print ("Skipping " +:+ file_path input_file +:+ ": invalid format");
        returns None
      else
        kind ← lift (py_get udb_data "kind" (VStr "unknown"));
        if eq_str kind "instruction" then lift (Some <$> convert_instruction udb_data)
        else if eq_str kind "csr" then lift (Some <$> convert_csr udb_data)
        else if eq_str kind "extension" then lift (Some <$> convert_extension udb_data)
        else
          _ ← print ("Skipping " +:+ file_path input_file +:+ ": unknown kind " +:+
                     sq +:+ py_str kind +:+ sq);
          returns None
  end.

(** ** [generate_tablegen_header] *)

Definition generate_tablegen_header : string :=
  Str.concat (map (λ line, line +:+ nl) [
    "//===-- Generated from RISC-V UDB --------*- tablegen -*-===//";
    "// Auto-generated from RISC-V Unified Database";
    banner;
    EmptyString;
    "include " +:+ dq +:+ "RISCVInstrFormats.td" +:+ dq;
    EmptyString;
    "// Register Classes";
    "def GPR : RegisterClass<" +:+ dq +:+ "RISCV" +:+ dq +:+ ", [i32], 32, (add";
    "  (sequence " +:+ dq +:+ "X%u" +:+ dq +:+ ", 0, 31)";
    ")>;";
    EmptyString;
    "def VR : RegisterClass<" +:+ dq +:+ "RISCV" +:+ dq +:+
      ", [v64i1, v128i1, v256i1, v512i1, v1024i1], 32, (add";
    "  (sequence " +:+ dq +:+ "V%u" +:+ dq +:+ ", 0, 31)";
    ")>;";
    EmptyString;
    "// Operand Types";
    "def simm12 : Operand<i32>;";
    "def simm13_lsb0 : Operand<i32>;";
    "def simm21_lsb0 : Operand<i32>;";
    "def uimm20 : Operand<i32>;";
    "def VMaskOp : Operand<i32>;";
    EmptyString;
    banner;
    "// Generated Content";
    banner
  ]).

(** ** [main], directory mode (lines 293 to 314)

    [files] is [sorted(input_path.glob(...))]; [output_file] is the text of
    the path of the aggregated artifact.  The value returned is the text
    written to the artifact, or [None] when no artifact is written. *)

Definition origin_marker (yaml_file : yaml_file) : string :=
  "// From " +:+ file_name yaml_file.

(** The body of the loop over the files. *)
Definition collect (all_content : list string) (yaml_file : yaml_file) : io (list string) :=
  _ ← print ("Processing " +:+ file_name yaml_file +:+ "...");
  content ← process_udb_file yaml_file;
  match content with
  | Some c =>
      if truthy (VStr c)
      then returns (all_content ++ [origin_marker yaml_file; c])
      else returns all_content
  | None => returns all_content
  end.

Definition artifact_text (all_content : list string) : string :=
  generate_tablegen_header +:+ Str.concat (map (λ content, content +:+ nl) all_content).

Definition report (output_file : string) (all_content : list string) : string :=
  "Generated " +:+ output_file +:+ " with " +:+
  str_of_Z (Z.of_nat (length all_content / 2)) +:+ " items".

Definition main_dir (files : list yaml_file) (output_file : string) : io (option string) :=
  all_content ← io_foldM collect [] files;
  match all_content with
  | [] =>
      _ ← print "No content found";
      returns None
  | _ =>
      _ ← print (report output_file all_content);
      returns (Some (artifact_text all_content))
  end.

(** ** The records of the scenarios *)

Definition add_record : value :=
  VDict [("kind", VStr "instruction"); ("name", VStr "add");
         ("format", VDict [("$inherits", VList [VStr "R-type"])]);
         ("assembly", VStr "rd, rs1, rs2")].

Definition mstatus_record : value :=
  VDict [("kind", VStr "csr"); ("name", VStr "mstatus"); ("address", VStr "0x300")].

Definition unknown_record : value :=
  VDict [("kind", VStr "unknown_kind"); ("name", VStr "x")].

Definition c_addi_record : value :=
  VDict [("kind", VStr "instruction"); ("name", VStr "c.addi");
         ("encoding", VDict [("match", VStr "0000-0000-0000-0001")]);
         ("assembly", VStr "xd, imm")].

(** ** Definitions that follow the wording of the specification *)

(** The spec's wording for the stripping of a bit pattern: every separator
    character is dropped, the other characters stay in order. *)
Fixpoint strip_separators (s : string) : string :=
  match s with
  | EmptyString => EmptyString
  | String c t =>
      if Ascii.eqb c "-" then strip_separators t else String c (strip_separators t)
  end.

(** The families an inheritance reference can name, in the order in which
    the classifier looks for them. *)
Definition inheritable : list family := [FR; FI; FS; FB; FU; FJ].

(** A reference text carries the marker of family [X]: the path segment
    [/X/] or the prefix form [X-]. *)
Definition marked (X : family) (s : string) : bool :=
  Str.contains ("/" +:+ family_str X +:+ "/") s || Str.contains (family_str X +:+ "-") s.

(** The first family, in the fixed order, whose marker the text carries. *)
Definition first_marked (s : string) : option family :=
  List.find (λ X, marked X s) inheritable.

(** The text of an inheritance reference: the reference itself, or the first
    element of a list of references. *)
Definition reference_text (inh : value) : option string :=
  match inh with
  | VStr s => Some s
  | VList (VStr s :: _) => Some s
  | _ => None
  end.

(** The immediate type of a family, as the specification tabulates it. *)
Definition immediate_type (f : family) : string :=
  match f with
  | FI | FS => "simm12"
  | FB => "simm13_lsb0"
  | FU => "uimm20"
  | FJ => "simm21_lsb0"
  | FR | FC | FV => "simm12"
  end.

(** The default operand shape of a family, as the specification tabulates
    it: the outputs, then the inputs. *)
Definition fallback_shape (f : family) : operands :=
  match f with
  | FR => (["GPR:$rd"], ["GPR:$rs1"; "GPR:$rs2"])
  | FI => (["GPR:$rd"], ["GPR:$rs1"; "simm12:$imm"])
  | FU | FJ => (["GPR:$rd"], [])
  | FS | FB => ([], ["GPR:$rs1"; "GPR:$rs2"; "simm12:$imm"])
  | FC | FV => ([], [])
  end.

(** Records without an assembly string. *)
Definition addi_bare_record : value :=
  VDict [("kind", VStr "instruction"); ("name", VStr "addi");
         ("format", VDict [("$inherits", VStr "inst_subtype/I/I-type.yaml#")])].

Definition c_nop_record : value :=
  VDict [("kind", VStr "instruction"); ("name", VStr "c.nop");
         ("encoding", VDict [("match", VStr "0000000000000001")]);
         ("assembly", VStr EmptyString)].

(** The opcode fields the extractor knows. *)
Definition known_fields : list string := ["opcode"; "funct3"; "funct7"; "funct6"; "funct2"].

(** What the extractor keeps of the entry of an opcode field: the [value]
    entry of a mapping, a string as it is, nothing of anything else. *)
Definition field_value (x : value) : option value :=
  match x with
  | VDict d => dict_get "value" d
  | VStr _ => Some x
  | _ => None
  end.

(** A value written directly, not as a mapping or a sequence. *)
Definition is_literal (x : value) : bool :=
  match x with
  | VBool _ | VInt _ | VStr _ => true
  | _ => false
  end.

(** The entries an [encoding] section contributes to an encoding. *)
Definition with_section (e : dict) (m : encoding_map) : encoding_map :=
  let m1 := match dict_get "match" e with Some v => <["match" := v]> m | None => m end in
  match dict_get "variables" e with Some v => <["variables" := v]> m1 | None => m1 end.

(** The entries an [opcodes] mapping contributes. *)
Definition keep_field (ops : dict) (m : encoding_map) (field : string) : encoding_map :=
  match dict_get field ops ≫= field_value with
  | Some v => <[field := v]> m
  | None => m
  end.

Definition add_record_encoded : value :=
  VDict [("kind", VStr "instruction"); ("name", VStr "c.add");
         ("format", VDict [("opcodes", VDict [("funct3", VStr "0b000");
                                              ("opcode", VDict [("value", VStr "0b01")])]);
                           ("encoding", VDict [("match", VStr "old")])]);
         ("encoding", VDict [("match", VStr "1001----------10");
                             ("variables", VList [VDict [("name", VStr "xd");
                                                         ("location", VStr "11-7")]])])].

(** ** Directory mode, as the specification describes it *)

(** The block of a file that renders. *)
Definition rendered (f : yaml_file) : option string :=
  match (process_udb_file f).2 with
  | Ok (Some content) => Some content
  | _ => None
  end.

(** The kind of a record that is a non-empty mapping with an unrecognized
    kind (a record without [kind] has the kind [unknown]). *)
Definition unrecognized_kind (f : yaml_file) : option value :=
  match file_load f with
  | Document (VDict (entry :: d)) =>
      let kind := match dict_get "kind" (entry :: d) with
                  | Some k => k
                  | None => VStr "unknown"
                  end in
      if eq_str kind "instruction" || eq_str kind "csr" || eq_str kind "extension"
      then None else Some kind
  | _ => None
  end.

(** The lines printed for one file of the batch. *)
Definition file_lines (f : yaml_file) : list string :=
  ("Processing " +:+ file_name f +:+ "...") ::
  match unrecognized_kind f with
  | Some kind =>
      ["Skipping " +:+ file_path f +:+ ": unknown kind " +:+ sq +:+ py_str kind +:+ sq]
  | None => []
  end.

(** The entries one file adds to the aggregated content: its origin marker
    and its block, or nothing. *)
Definition file_blocks (f : yaml_file) : list string :=
  match rendered f with
  | Some content => [origin_marker f; content]
  | None => []
  end.

(** The number of files that render. *)
Definition rendered_count (files : list yaml_file) : nat :=
  length (omap rendered files).

Definition add_file : yaml_file :=
  {| file_path := "in/add.yaml"; file_name := "add.yaml"; file_load := Document add_record |}.
Definition bad_file : yaml_file :=
  {| file_path := "in/bad.yaml"; file_name := "bad.yaml"; file_load := Document unknown_record |}.
Definition mstatus_file : yaml_file :=
  {| file_path := "in/mstatus.yaml"; file_name := "mstatus.yaml";
     file_load := Document mstatus_record |}.
Definition add_copy_file : yaml_file :=
  {| file_path := "elsewhere/add2.yaml"; file_name := "add2.yaml";
     file_load := Document add_record |}.

(** ** Further definitions used by the properties of the code *)

(** A scalar that is no container: null, a boolean or an integer. *)
Definition is_scalar (v : value) : bool :=
  match v with
  | VNone | VBool _ | VInt _ => true
  | _ => false
  end.

Definition is_str (v : value) : bool :=
  match v with VStr _ => true | _ => false end.

Definition vadd_record : value :=
  VDict [("kind", VStr "instruction"); ("name", VStr "vadd.vv");
         ("assembly", VStr "vd, vs2, vs1, vm")].

(** The operands the parser can emit for a family. *)
Inductive emitted (f : family) : string → Prop :=
| emitted_vd : f = FV → emitted f "VR:$vd"
| emitted_vs (part : string) : f = FV → emitted f ("VR:$" +:+ part)
| emitted_vm : f = FV → emitted f "VMaskOp:$vm"
| emitted_gpr (part : string) : emitted f ("GPR:$" +:+ part)
| emitted_imm : emitted f (imm_operand f).

(** [d.get(k, dflt)] on the entries of a mapping. *)
Definition entry_or (d : dict) (k : string) (dflt : value) : value :=
  match dict_get k d with
  | Some x => x
  | None => dflt
  end.

(** ** [main], single-file mode (lines 283 to 291)

    [output_path] is the text of the output path.  The value returned is
    the text written to it, or [None] when nothing is written. *)
Definition main_file (input_path : yaml_file) (output_path : string) : io (option string) :=
  content ← process_udb_file input_path;
  match content with
  | Some c =>
      if truthy (VStr c)
      then _ ← print ("Generated " +:+ output_path);
           returns (Some (generate_tablegen_header +:+ c))
      else _ ← print "No content generated"; returns None
  | None => _ ← print "No content generated"; returns None
  end.

(** The lines printed while one file of a batch is processed. *)
Definition batch_lines (f : yaml_file) : list string :=
  ("Processing " +:+ file_name f +:+ "...") :: (process_udb_file f).1.

(** A file whose record makes a renderer raise. *)
Definition odd_file : yaml_file :=
  {| file_path := "in/odd.yaml"; file_name := "odd.yaml";
     file_load := Document (VDict [("kind", VStr "instruction"); ("name", VInt 7)]) |}.

Definition broken_file : yaml_file :=
  {| file_path := "in/broken.yaml"; file_name := "broken.yaml";
     file_load := YAMLError "could not find expected ':'" |}.

(** The operands that a list of tokens gives, starting from empty lists:
    the loop of [parse_assembly_operands] on these tokens. *)
Definition token_operands (inst_for : family) (parts : list string) : operands :=
  fold_left (operand_step inst_for) parts ([], []).

(** One of the modelled values other than a string: null, a boolean, an
    integer, a sequence or a mapping. *)
Definition non_text (v : value) : bool :=
  match v with
  | VNone | VBool _ | VInt _ | VList _ | VDict _ => true
  | VStr _ => false
  end.

(** A character of the ASCII range. *)
Definition is_ascii_char (c : ascii) : bool := ord c <? 128.

(** * Properties *)

(** ** The model on the scenarios of the specification *)

Example split_commas :
  Str.split "rd, rs1, rs2" "," = ["rd"; " rs1"; " rs2"].
Proof. reflexivity. Qed.

Example split_operand : Str.split "GPR:$rd" ":$" = ["GPR"; "rd"].
Proof. reflexivity. Qed.

Example split_trailing : Str.split "a," "," = ["a"; EmptyString].
Proof. reflexivity. Qed.

Example replace_double_blank : Str.replace "a    b   c" "  " " " = "a  b  c".
Proof. reflexivity. Qed.

Example strip_both : Str.strip "  x y  " = "x y".
Proof. reflexivity. Qed.

Example repr_nested :
  py_str (VDict [("a", VList [VInt 1; VStr "x"; VNone]); ("b", VBool true)])
  = "{'a': [1, 'x', None], 'b': True}".
Proof. reflexivity. Qed.

Example repr_negative : py_str (VInt (-42)) = "-42".
Proof. reflexivity. Qed.

Example classify_add :
  get_instruction_format
    (VDict [("kind", VStr "instruction"); ("name", VStr "add");
            ("format", VDict [("$inherits", VList [VStr "R-type"])]);
            ("assembly", VStr "rd, rs1, rs2")]) = Ok FR.
Proof. reflexivity. Qed.

Example classify_vector :
  get_instruction_format (VDict [("assembly", VStr "vd, vs2, vs1, vm")]) = Ok FV.
Proof. reflexivity. Qed.

Example classify_empty_inherits :
  get_instruction_format (VDict [("format", VDict [("$inherits", VList [])])])
  = Raise IndexError.
Proof. reflexivity. Qed.

Example parse_add :
  parse_assembly_operands (VStr "rd, rs1, rs2") FR
  = Ok (["GPR:$rd"], ["GPR:$rs1"; "GPR:$rs2"]).
Proof. reflexivity. Qed.

Example parse_vector :
  parse_assembly_operands (VStr "vd, vs2, vs1, vm") FV
  = Ok (["VR:$vd"], ["VR:$vs2"; "VR:$vs1"; "VMaskOp:$vm"]).
Proof. reflexivity. Qed.

Example parse_branch :
  parse_assembly_operands (VStr "xs1, xs2, imm") FB
  = Ok ([], ["GPR:$rs1"; "GPR:$rs2"; "simm13_lsb0:$imm"]).
Proof. reflexivity. Qed.

Example convert_add :
  convert_instruction add_record
  = Ok (instruction_block "ADD" "GPR:$rd" "GPR:$rs1, GPR:$rs2" "add" "$rd, $rs1, $rs2"
          "add" EmptyString "R" EmptyString).
Proof. reflexivity. Qed.

Example convert_mstatus :
  convert_csr mstatus_record
  = Ok (nl +:+ "def MSTATUS : RISCVReg<0x300, " +:+ dq +:+ "mstatus" +:+ dq +:+ "> {" +:+ nl +:+
        "  // mstatus: " +:+ nl +:+ "}").
Proof. reflexivity. Qed.

Example directory_scenario :
  main_dir [ {| file_path := "in/add.yaml"; file_name := "add.yaml";
                file_load := Document add_record |};
             {| file_path := "in/bad.yaml"; file_name := "bad.yaml";
                file_load := Document unknown_record |} ]
           "out/RISCVGenerated.td"
  = ([ "Processing add.yaml...";
       "Processing bad.yaml...";
       "Skipping in/bad.yaml: unknown kind 'unknown_kind'";
       "Generated out/RISCVGenerated.td with 1 items" ],
     Ok (Some (generate_tablegen_header +:+ "// From add.yaml" +:+ nl +:+
               instruction_block "ADD" "GPR:$rd" "GPR:$rs1, GPR:$rs2" "add"
                 "$rd, $rs1, $rs2" "add" EmptyString "R" EmptyString +:+ nl))).
Proof. vm_compute. reflexivity. Qed.

(** ** Unfolding the monads *)

(** Splits the first computation of a sequence that is known to return. *)
Ltac invert_bind H :=
  match type of H with
  | mbind _ ?m = Ok _ =>
      let E := fresh "E" in
      destruct m eqn:E; [cbn [mbind result_bind] in H | discriminate H]
  end.

(** ** Facts about the string methods *)

Lemma prefix_empty (t : string) : String.prefix EmptyString t = true.
Proof. by destruct t. Qed.

Lemma prefix_cons (c a : ascii) (p t : string) :
  String.prefix (String c p) (String a t) = Ascii.eqb a c && String.prefix p t.
Proof.
  simpl. destruct (ascii_dec c a) as [->|Hne].
  - by rewrite Ascii.eqb_refl.
  - replace (Ascii.eqb a c) with false; [done|].
    symmetry. apply Ascii.eqb_neq. congruence.
Qed.

Lemma prefix_single (c a : ascii) (t : string) :
  String.prefix (String c EmptyString) (String a t) = Ascii.eqb a c.
Proof. by rewrite prefix_cons, prefix_empty, andb_true_r. Qed.

Lemma replace_dash_strip (s : string) :
  Str.replace s "-" EmptyString = strip_separators s.
Proof.
  unfold Str.replace. induction s as [|a t IH]; [done|].
  cbn [Str.replace_go strip_separators].
  rewrite prefix_single. destruct (Ascii.eqb a "-"); simpl; by rewrite IH.
Qed.

Lemma strip_separators_clean (s : string) :
  Str.contains "-" (strip_separators s) = false.
Proof.
  induction s as [|a t IH]; [done|].
  simpl. destruct (Ascii.eqb a "-") eqn:E; [done|].
  cbn [Str.contains]. rewrite prefix_single, E. exact IH.
Qed.

(** ** The format classifier *)

Lemma dict_has_get (k : string) (d : dict) (v : value) :
  dict_get k d = Some v → dict_has k d = true.
Proof. unfold dict_has. by intros ->. Qed.

(** What the second block of the classifier computes on a record whose
    top-level encoding is a mapping with a string under [match]. *)
Lemma match_is_compressed_length (d enc : dict) (m : string) :
  dict_get "encoding" d = Some (VDict enc) →
  dict_get "match" enc = Some (VStr m) →
  match_is_compressed (VDict d)
  = Ok (String.length (strip_separators m) =? 16).
Proof.
  intros Henc Hm. unfold match_is_compressed. cbn [py_in py_getitem].
  rewrite (dict_has_get _ _ _ Henc), Henc. cbn [mbind result_bind py_in py_getitem].
  rewrite (dict_has_get _ _ _ Hm), Hm. cbn [mbind result_bind py_replace].
  by rewrite replace_dash_strip.
Qed.

(** A format section without an inheritance reference selects no family. *)
Lemma inherit_family_absent (f : dict) :
  dict_get "$inherits" f = None → inherit_family (VDict f) = Ok None.
Proof.
  intros H. unfold inherit_family. cbn [py_in]. unfold dict_has. by rewrite H.
Qed.

(** The tail of the classifier, after the test on the bit pattern, never
    answers [FC]. *)
Lemma assembly_never_compressed (udb_data : value) :
  (assembly ← py_get udb_data "assembly" (VStr EmptyString);
   vm ← py_in "vm" assembly;
   if vm : bool then
     vs1 ← py_in "vs1" assembly;
     if vs1 : bool then Ok FV else
     vs2 ← py_in "vs2" assembly;
     if vs2 : bool then Ok FV else Ok FR
   else Ok FR) ≠ Ok FC.
Proof.
  destruct (py_get udb_data "assembly" (VStr EmptyString)) as [a|]; [|done].
  cbn [mbind result_bind].
  destruct (py_in "vm" a) as [[]|]; cbn [mbind result_bind]; [|done..].
  destruct (py_in "vs1" a) as [[]|]; cbn [mbind result_bind]; [done| |done].
  destruct (py_in "vs2" a) as [[]|]; cbn [mbind result_bind]; done.
Qed.

(** After an inheritance step that selects no family, the test on the bit
    pattern decides between [C] and the rest. *)
Lemma compressed_iff_length (d enc : dict) (format_data : value) (m : string) :
  py_get (VDict d) "format" (VDict []) = Ok format_data →
  inherit_family format_data = Ok None →
  dict_get "encoding" d = Some (VDict enc) →
  dict_get "match" enc = Some (VStr m) →
  get_instruction_format (VDict d) = Ok FC
  ↔ String.length (strip_separators m) = 16.
Proof.
  intros Hfmt Hinh Henc Hm. unfold get_instruction_format.
  rewrite Hfmt. cbn [mbind result_bind]. rewrite Hinh. cbn [mbind result_bind].
  rewrite (match_is_compressed_length d enc m Henc Hm). cbn [mbind result_bind].
  destruct (Nat.eqb_spec (String.length (strip_separators m)) 16) as [Heq|Hne].
  - done.
  - split; [|done]. intros H. destruct (assembly_never_compressed (VDict d) H).
Qed.

(** C1: for a record whose inheritance step selects no family (no
    [$inherits], or a reference with none of the markers) and whose top-level
    [encoding] is a mapping holding a string under [match], the classifier
    answers [C] exactly when the pattern, stripped of every separator
    character, has length 16. *)
Theorem compressed_iff_sixteen (d enc : dict) (format_data : value) (m : string) :
  py_get (VDict d) "format" (VDict []) = Ok format_data →
  inherit_family format_data = Ok None →
  dict_get "encoding" d = Some (VDict enc) →
  dict_get "match" enc = Some (VStr m) →
  Str.replace m "-" EmptyString = strip_separators m
  ∧ (get_instruction_format (VDict d) = Ok FC
     ↔ String.length (strip_separators m) = 16).
Proof.
  intros Hfmt Hinh Henc Hm. split; [apply replace_dash_strip|].
  by apply (compressed_iff_length d enc format_data m).
Qed.

Lemma compressed_iff_sixteen_witness :
  Str.replace "0000-0000-0000-0001" "-" EmptyString
  = strip_separators "0000-0000-0000-0001"
  ∧ (get_instruction_format c_addi_record = Ok FC
     ↔ String.length (strip_separators "0000-0000-0000-0001") = 16).
Proof.
  apply (compressed_iff_sixteen _ [("match", VStr "0000-0000-0000-0001")] (VDict []));
    reflexivity.
Defined.

Example classify_sixteen : get_instruction_format c_addi_record = Ok FC.
Proof. reflexivity. Qed.

(** A pattern of 16 characters of which some are separators is not
    classified as compressed. *)
Example classify_sixteen_with_separators :
  get_instruction_format
    (VDict [("encoding", VDict [("match", VStr "000-----------01")])]) = Ok FR.
Proof. reflexivity. Qed.

(** In particular: no inheritance reference at all, and 16 significant
    characters. *)
Corollary compressed_without_reference (d enc : dict) (m : string) :
  dict_get "format" d = None →
  dict_get "encoding" d = Some (VDict enc) →
  dict_get "match" enc = Some (VStr m) →
  String.length (strip_separators m) = 16 →
  get_instruction_format (VDict d) = Ok FC.
Proof.
  intros Hf Henc Hm Hlen.
  apply (compressed_iff_length d enc (VDict []) m); try done.
  cbn [py_get]. by rewrite Hf.
Qed.

(** On a text, the chain of tests is the search for the first marked family. *)
Lemma has_marker_str (a b s : string) :
  has_marker a b (VStr s) = Ok (Str.contains a s || Str.contains b s).
Proof. unfold has_marker. cbn. by destruct (Str.contains a s). Qed.

Lemma inherit_chain_first_marked (s : string) :
  inherit_chain (VStr s) = Ok (first_marked s).
Proof.
  unfold inherit_chain. rewrite !has_marker_str.
  change (Str.contains "/R/" s || Str.contains "R-" s) with (marked FR s).
  change (Str.contains "/I/" s || Str.contains "I-" s) with (marked FI s).
  change (Str.contains "/S/" s || Str.contains "S-" s) with (marked FS s).
  change (Str.contains "/B/" s || Str.contains "B-" s) with (marked FB s).
  change (Str.contains "/U/" s || Str.contains "U-" s) with (marked FU s).
  change (Str.contains "/J/" s || Str.contains "J-" s) with (marked FJ s).
  unfold first_marked, inheritable. cbn [List.find mbind result_bind].
  destruct (marked FR s); [done|]. destruct (marked FI s); [done|].
  destruct (marked FS s); [done|]. destruct (marked FB s); [done|].
  destruct (marked FU s); [done|]. by destruct (marked FJ s).
Qed.

Lemma inherit_family_text (f : dict) (inh : value) (s : string) :
  dict_get "$inherits" f = Some inh →
  reference_text inh = Some s →
  inherit_family (VDict f) = Ok (first_marked s).
Proof.
  intros Hf Hs. unfold inherit_family. cbn [py_in py_getitem].
  rewrite (dict_has_get _ _ _ Hf), Hf. cbn [mbind result_bind].
  destruct inh as [| | |t|[|[] ?]|]; try discriminate Hs;
    injection Hs as ->; cbn [mbind result_bind]; apply inherit_chain_first_marked.
Qed.

Lemma first_marked_unique (s : string) (X : family) :
  X ∈ inheritable → marked X s = true →
  (∀ Y, Y ∈ inheritable → marked Y s = true → Y = X) →
  first_marked s = Some X.
Proof.
  intros HX HmX Huniq. unfold first_marked.
  destruct (List.find (λ Y, marked Y s) inheritable) as [Y|] eqn:E.
  - apply find_some in E as [HY HmY]. f_equal. apply Huniq; [|done].
    by apply list_elem_of_In.
  - apply list_elem_of_In in HX. by rewrite (find_none _ _ E X HX) in HmX.
Qed.

(** C4: when [format.$inherits] is present, as a text or as a list whose
    first element is a text, the classifier answers the first family in the
    order R, I, S, B, U, J whose marker ([/X/] or [X-]) occurs in the text; so
    a text with the marker of exactly one family is classified as that
    family. *)
Theorem inherited_family_first_marker (d f : dict) (inh : value) (s : string) :
  dict_get "format" d = Some (VDict f) →
  dict_get "$inherits" f = Some inh →
  reference_text inh = Some s →
  (∀ X, first_marked s = Some X → get_instruction_format (VDict d) = Ok X)
  ∧ (∀ X, X ∈ inheritable → marked X s = true →
       (∀ Y, Y ∈ inheritable → marked Y s = true → Y = X) →
       get_instruction_format (VDict d) = Ok X).
Proof.
  intros Hd Hf Hs.
  assert (Hfirst : ∀ X, first_marked s = Some X →
                        get_instruction_format (VDict d) = Ok X).
  { intros X HX. unfold get_instruction_format. cbn [py_get mbind result_bind].
    rewrite Hd. rewrite (inherit_family_text f inh s Hf Hs), HX.
    reflexivity. }
  split; [exact Hfirst|].
  intros X HX Hm Huniq. apply Hfirst. by apply first_marked_unique.
Qed.

Lemma inherited_family_first_marker_witness :
  (∀ X, first_marked "inst_subtype/I/I-type.yaml#" = Some X →
        get_instruction_format
          (VDict [("format", VDict [("$inherits", VList [VStr "inst_subtype/I/I-type.yaml#"])])])
        = Ok X)
  ∧ (∀ X, X ∈ inheritable → marked X "inst_subtype/I/I-type.yaml#" = true →
       (∀ Y, Y ∈ inheritable → marked Y "inst_subtype/I/I-type.yaml#" = true → Y = X) →
       get_instruction_format
         (VDict [("format", VDict [("$inherits", VList [VStr "inst_subtype/I/I-type.yaml#"])])])
       = Ok X).
Proof.
  apply (inherited_family_first_marker _
           [("$inherits", VList [VStr "inst_subtype/I/I-type.yaml#"])]
           (VList [VStr "inst_subtype/I/I-type.yaml#"]));
    reflexivity.
Defined.

Example first_marked_order : first_marked "fmt/S/R-variant" = Some FR.
Proof. reflexivity. Qed.

(** ** The operand parser *)

(** A turn of the loop appends to the lists it is given what it appends to
    empty lists. *)
Lemma operand_step_shift (f : family) (output inp : list string) (part : string) :
  operand_step f (output, inp) part
  = (output ++ (operand_step f ([], []) part).1,
     inp ++ (operand_step f ([], []) part).2).
Proof.
  unfold operand_step.
  repeat match goal with
         | |- context [if ?b then _ else _] => destruct b
         end; cbn [fst snd app]; by rewrite ?app_nil_r.
Qed.

Lemma token_operands_shift (f : family) (parts : list string) (output inp : list string) :
  fold_left (operand_step f) parts (output, inp)
  = (output ++ (token_operands f parts).1, inp ++ (token_operands f parts).2).
Proof.
  unfold token_operands. revert output inp.
  induction parts as [|part parts IH]; intros output inp.
  - cbn. by rewrite !app_nil_r.
  - cbn [fold_left]. rewrite (operand_step_shift f output inp part).
    destruct (operand_step f ([], []) part) as [o i]. cbn [fst snd].
    rewrite (IH (output ++ o) (inp ++ i)), (IH o i). cbn [fst snd].
    by rewrite !app_assoc.
Qed.

(** The step of the loop on an immediate token. *)
Lemma immediate_step (inst_for : family) (part : string) (output inp : list string) :
  Str.startswith part "v" && bool_decide (inst_for = FV) = false →
  Str.startswith part "x" || str_mem part ["rd"; "rs1"; "rs2"; "xs1"; "xd"] = false →
  Str.contains "imm" (Str.lower part) = true ∨ Str.isdigit part = true →
  operand_step inst_for (output, inp) part
  = (output, inp ++ [immediate_type inst_for +:+ ":$imm"]).
Proof.
  intros Hv Hx Himm. unfold operand_step. rewrite Hv, Hx.
  replace (Str.contains "imm" (Str.lower part) || Str.isdigit part) with true
    by (symmetry; apply orb_true_iff; exact Himm).
  by destruct inst_for.
Qed.

(** C5: when a token of the assembly string is left alone by the vector
    rule and by the general-register rule, and its lower-case form contains
    [imm] or it is a non-empty run of digits, the operand parser emits for it
    exactly one input and no output: what [parse_assembly_operands] returns
    is the operands of the tokens before it, then the immediate of the family
    (simm12 for I and S, simm13_lsb0 for B, uimm20 for U, simm21_lsb0 for J,
    simm12 for every other family) among the inputs, then the operands of the
    tokens after it. *)
Theorem immediate_token (inst_for : family) (s : string) (before after : list string)
    (part : string) :
  map Str.strip (Str.split s ",") = before ++ part :: after →
  Str.startswith part "v" && bool_decide (inst_for = FV) = false →
  Str.startswith part "x" || str_mem part ["rd"; "rs1"; "rs2"; "xs1"; "xd"] = false →
  Str.contains "imm" (Str.lower part) = true ∨ Str.isdigit part = true →
  parse_assembly_operands (VStr s) inst_for
  = Ok ((token_operands inst_for before).1 ++ (token_operands inst_for after).1,
        (token_operands inst_for before).2
          ++ [immediate_type inst_for +:+ ":$imm"]
          ++ (token_operands inst_for after).2)
  ∧ ∀ output inp,
      operand_step inst_for (output, inp) part
      = (output, inp ++ [immediate_type inst_for +:+ ":$imm"]).
Proof.
  intros Htokens Hv Hx Himm.
  split; [|intros output inp; by apply immediate_step].
  assert (Hs : truthy (VStr s) = true).
  { destruct s as [|c s]; [|reflexivity]. exfalso.
    destruct before as [|b before]; cbn in Htokens.
    - injection Htokens as <- _. by destruct Himm.
    - injection Htokens as _ Hrest. by destruct before. }
  unfold parse_assembly_operands. rewrite Hs. cbn [negb py_split mbind result_bind].
  rewrite Htokens, fold_left_app. cbn [fold_left].
  fold (token_operands inst_for before).
  destruct (token_operands inst_for before) as [o1 i1]. cbn [fst snd].
  rewrite (immediate_step inst_for part o1 i1 Hv Hx Himm).
  rewrite token_operands_shift. by rewrite <- app_assoc.
Qed.

Lemma immediate_token_witness :
  parse_assembly_operands (VStr "xs1, imm, xs2") FB
  = Ok ((token_operands FB ["xs1"]).1 ++ (token_operands FB ["xs2"]).1,
        (token_operands FB ["xs1"]).2
          ++ [immediate_type FB +:+ ":$imm"]
          ++ (token_operands FB ["xs2"]).2)
  ∧ ∀ output inp,
      operand_step FB (output, inp) "imm"
      = (output, inp ++ [immediate_type FB +:+ ":$imm"]).
Proof.
  apply (immediate_token FB "xs1, imm, xs2" ["xs1"] ["xs2"] "imm");
    [reflexivity | reflexivity | reflexivity | left; reflexivity].
Defined.

Example immediate_in_place :
  parse_assembly_operands (VStr "xs1, imm, xs2") FB
  = Ok ([], ["GPR:$rs1"; "simm13_lsb0:$imm"; "GPR:$rs2"]).
Proof. reflexivity. Qed.

Example immediate_types :
  map (λ f, parse_assembly_operands (VStr "rd, 12") f)
      [FR; FI; FS; FB; FU; FJ; FC; FV]
  = map (λ t, Ok (["GPR:$rd"], [t]))
      ["simm12:$imm"; "simm12:$imm"; "simm12:$imm"; "simm13_lsb0:$imm";
       "uimm20:$imm"; "simm21_lsb0:$imm"; "simm12:$imm"; "simm12:$imm"].
Proof. reflexivity. Qed.

(** C10: under family V a token that begins with [v] is handled by the
    vector rule alone.  [vd] gives the vector output, a token beginning with
    [vs] a vector input, [vm] the mask input; any other such token gives no
    operand at all, whatever else it contains: [vimm] yields no immediate
    under V, while it does under I. *)
Theorem vector_token_exclusive (part : string) (output inp : list string) :
  Str.startswith part "v" = true →
  (part = "vd" → operand_step FV (output, inp) part = (output ++ ["VR:$vd"], inp))
  ∧ (Str.startswith part "vs" = true →
     operand_step FV (output, inp) part = (output, inp ++ ["VR:$" +:+ part]))
  ∧ (part = "vm" → operand_step FV (output, inp) part = (output, inp ++ ["VMaskOp:$vm"]))
  ∧ (part ≠ "vd" → part ≠ "vm" → Str.startswith part "vs" = false →
     operand_step FV (output, inp) part = (output, inp))
  ∧ parse_assembly_operands (VStr "vimm") FV = Ok ([], [])
  ∧ parse_assembly_operands (VStr "vimm") FI = Ok ([], ["simm12:$imm"]).
Proof.
  intros Hv. unfold operand_step. rewrite Hv. cbn [andb bool_decide decide_rel].
  rewrite bool_decide_eq_true_2 by reflexivity.
  repeat split.
  - by intros ->.
  - intros Hvs. rewrite Hvs.
    destruct (String.eqb_spec part "vd") as [->|]; [discriminate Hvs | done].
  - by intros ->.
  - intros Hvd Hvm Hvs. rewrite Hvs.
    destruct (String.eqb_spec part "vd"); [done|].
    by destruct (String.eqb_spec part "vm").
Qed.

Lemma vector_token_exclusive_witness :
  ("vimm" = "vd" → operand_step FV ([], []) "vimm" = ([] ++ ["VR:$vd"], []))
  ∧ (Str.startswith "vimm" "vs" = true →
     operand_step FV ([], []) "vimm" = ([], [] ++ ["VR:$" +:+ "vimm"]))
  ∧ ("vimm" = "vm" → operand_step FV ([], []) "vimm" = ([], [] ++ ["VMaskOp:$vm"]))
  ∧ ("vimm" ≠ "vd" → "vimm" ≠ "vm" → Str.startswith "vimm" "vs" = false →
     operand_step FV ([], []) "vimm" = ([], []))
  ∧ parse_assembly_operands (VStr "vimm") FV = Ok ([], [])
  ∧ parse_assembly_operands (VStr "vimm") FI = Ok ([], ["simm12:$imm"]).
Proof. apply (vector_token_exclusive "vimm" [] []). reflexivity. Defined.

(** ** The instruction renderer *)

(** The steps behind a block that [convert_instruction] returned. *)
Lemma convert_instruction_inv (udb_data : value) (text : string) :
  convert_instruction udb_data = Ok text →
  ∃ name long_name assembly inst_for parsed out_parts in_parts tn desc_clean constraint_str,
    py_get udb_data "name" (VStr "unknown") = Ok name
    ∧ py_get udb_data "long_name" name = Ok long_name
    ∧ py_get udb_data "assembly" (VStr EmptyString) = Ok assembly
    ∧ get_instruction_format udb_data = Ok inst_for
    ∧ parse_assembly_operands assembly inst_for = Ok parsed
    ∧ mapM asm_name (default_operands inst_for parsed).1 = Ok out_parts
    ∧ mapM asm_name (default_operands inst_for parsed).2 = Ok in_parts
    ∧ text = instruction_block tn
               (Str.join ", " (default_operands inst_for parsed).1)
               (Str.join ", " (default_operands inst_for parsed).2)
               (py_str name) (Str.join ", " (out_parts ++ in_parts))
               (py_str long_name) desc_clean (family_str inst_for) constraint_str.
Proof.
  unfold convert_instruction. intros H.
  do 7 invert_bind H.
  destruct (default_operands a3 a5) as [output inp] eqn:Hdef.
  do 4 invert_bind H.
  inversion H as [Htext]. clear H.
  exists a, a0, a2, a3, a5, a6, a7, a9.
  eexists _, _. rewrite Hdef. cbn [fst snd].
  repeat (split; [first [assumption | reflexivity]|]). reflexivity.
Qed.

(** The operand groups of a rendered block are those of the parsed
    operands, after the substitution of the defaults. *)
Lemma rendered_operands (udb_data assembly : value) (f : family) (parsed : operands)
    (text : string) :
  py_get udb_data "assembly" (VStr EmptyString) = Ok assembly →
  get_instruction_format udb_data = Ok f →
  parse_assembly_operands assembly f = Ok parsed →
  convert_instruction udb_data = Ok text →
  ∃ out_parts in_parts tn name long_name desc_clean constraint_str,
    mapM asm_name (default_operands f parsed).1 = Ok out_parts
    ∧ mapM asm_name (default_operands f parsed).2 = Ok in_parts
    ∧ text = instruction_block tn
               (Str.join ", " (default_operands f parsed).1)
               (Str.join ", " (default_operands f parsed).2)
               name (Str.join ", " (out_parts ++ in_parts))
               long_name desc_clean (family_str f) constraint_str.
Proof.
  intros Hasm Hfam Hparse Hconv.
  apply convert_instruction_inv in Hconv
    as (name & long_name & assembly' & f' & parsed' & out_parts & in_parts & tn
        & desc & cs & _ & _ & Hasm' & Hfam' & Hparse' & Hout & Hin & ->).
  rewrite Hasm in Hasm'. injection Hasm' as <-.
  rewrite Hfam in Hfam'. injection Hfam' as <-.
  rewrite Hparse in Hparse'. injection Hparse' as <-.
  by exists out_parts, in_parts, tn, (py_str name), (py_str long_name), desc, cs.
Qed.

Lemma default_operands_shape (f : family) :
  default_operands f ([], []) = fallback_shape f.
Proof. by destruct f. Qed.

(** C6: when parsing the assembly string of a record gives no output and no
    input, the rendered groups are the defaults of the family: one
    general-purpose output for R, I, U and J; two general-purpose inputs for
    R; a general-purpose input and a 12-bit signed immediate for I; two
    general-purpose inputs, a 12-bit signed immediate and no output for S and
    B. *)
Theorem fallback_defaults (udb_data assembly : value) (f : family) :
  py_get udb_data "assembly" (VStr EmptyString) = Ok assembly →
  get_instruction_format udb_data = Ok f →
  parse_assembly_operands assembly f = Ok ([], []) →
  default_operands f ([], []) = fallback_shape f
  ∧ ∀ text, convert_instruction udb_data = Ok text →
      ∃ tn name asm_format long_name desc_clean constraint_str,
        text = instruction_block tn
                 (Str.join ", " (fallback_shape f).1)
                 (Str.join ", " (fallback_shape f).2)
                 name asm_format long_name desc_clean (family_str f) constraint_str.
Proof.
  intros Hasm Hfam Hparse. split; [apply default_operands_shape|].
  intros text Hconv.
  destruct (rendered_operands _ _ _ _ _ Hasm Hfam Hparse Hconv)
    as (out_parts & in_parts & tn & name & long_name & desc & cs & _ & _ & ->).
  rewrite default_operands_shape.
  by exists tn, name, (Str.join ", " (out_parts ++ in_parts)), long_name, desc, cs.
Qed.

Lemma fallback_defaults_witness :
  default_operands FI ([], []) = fallback_shape FI
  ∧ ∀ text, convert_instruction addi_bare_record = Ok text →
      ∃ tn name asm_format long_name desc_clean constraint_str,
        text = instruction_block tn
                 (Str.join ", " (fallback_shape FI).1)
                 (Str.join ", " (fallback_shape FI).2)
                 name asm_format long_name desc_clean (family_str FI) constraint_str.
Proof.
  apply (fallback_defaults addi_bare_record (VStr EmptyString) FI); reflexivity.
Defined.

Example convert_addi_bare :
  convert_instruction addi_bare_record
  = Ok (instruction_block "ADDI" "GPR:$rd" "GPR:$rs1, simm12:$imm" "addi"
          "$rd, $rs1, $imm" "addi" EmptyString "I" EmptyString).
Proof. reflexivity. Qed.

Example fallback_groups :
  map (λ f, (Str.join ", " (default_operands f ([], [])).1,
             Str.join ", " (default_operands f ([], [])).2))
      [FR; FI; FS; FB; FU; FJ]
  = [("GPR:$rd", "GPR:$rs1, GPR:$rs2");
     ("GPR:$rd", "GPR:$rs1, simm12:$imm");
     (EmptyString, "GPR:$rs1, GPR:$rs2, simm12:$imm");
     (EmptyString, "GPR:$rs1, GPR:$rs2, simm12:$imm");
     ("GPR:$rd", EmptyString);
     ("GPR:$rd", EmptyString)].
Proof. reflexivity. Qed.

(** C9: for family C or V, when parsing gives no output and no input (as an
    empty assembly string does), no default is substituted: the outs group,
    the ins group and the assembly format of the rendered block are empty. *)
Theorem no_defaults_for_C_V (udb_data assembly : value) (f : family) :
  f = FC ∨ f = FV →
  py_get udb_data "assembly" (VStr EmptyString) = Ok assembly →
  get_instruction_format udb_data = Ok f →
  parse_assembly_operands assembly f = Ok ([], []) →
  parse_assembly_operands (VStr EmptyString) f = Ok ([], [])
  ∧ default_operands f ([], []) = ([], [])
  ∧ ∀ text, convert_instruction udb_data = Ok text →
      ∃ tn name long_name desc_clean constraint_str,
        text = instruction_block tn EmptyString EmptyString name EmptyString
                 long_name desc_clean (family_str f) constraint_str.
Proof.
  intros Hf Hasm Hfam Hparse.
  assert (Hdef : default_operands f ([], []) = ([], [])) by (by destruct Hf as [->| ->]).
  split; [done|]. split; [done|].
  intros text Hconv.
  destruct (rendered_operands _ _ _ _ _ Hasm Hfam Hparse Hconv)
    as (out_parts & in_parts & tn & name & long_name & desc & cs & Hout & Hin & ->).
  rewrite Hdef in *. cbn in Hout, Hin. injection Hout as <-. injection Hin as <-.
  by exists tn, name, long_name, desc, cs.
Qed.

Lemma no_defaults_for_C_V_witness :
  parse_assembly_operands (VStr EmptyString) FC = Ok ([], [])
  ∧ default_operands FC ([], []) = ([], [])
  ∧ ∀ text, convert_instruction c_nop_record = Ok text →
      ∃ tn name long_name desc_clean constraint_str,
        text = instruction_block tn EmptyString EmptyString name EmptyString
                 long_name desc_clean (family_str FC) constraint_str.
Proof.
  apply (no_defaults_for_C_V c_nop_record (VStr EmptyString) FC);
    [left; reflexivity | reflexivity..].
Defined.

Example convert_c_nop :
  convert_instruction c_nop_record
  = Ok (instruction_block "C_NOP" EmptyString EmptyString "c.nop" EmptyString "c.nop"
          EmptyString "C"
          (nl +:+ "  let EncodingPattern = " +:+ dq +:+ "0000000000000001" +:+ dq +:+ ";")).
Proof. reflexivity. Qed.

(** ** The encoding extractor *)

Lemma extract_field_dict (ops : dict) (m : encoding_map) (field : string) :
  extract_field (VDict ops) m field = Ok (keep_field ops m field).
Proof.
  unfold extract_field, keep_field. cbn [py_in py_getitem]. unfold dict_has.
  destruct (dict_get field ops) as [x|]; cbn; [|done].
  destruct x as [| | | |l|d]; cbn; try done.
  unfold dict_has. by destruct (dict_get "value" d).
Qed.

Lemma foldM_extract_field (ops : dict) (fields : list string) (m : encoding_map) :
  foldM (extract_field (VDict ops)) m fields = Ok (fold_left (keep_field ops) fields m).
Proof.
  revert m. induction fields as [|field fields IH]; intros m; [done|].
  cbn [foldM fold_left]. rewrite extract_field_dict. cbn [mbind result_bind]. apply IH.
Qed.

Lemma lookup_keep_field (ops : dict) (m : encoding_map) (field k : string) :
  keep_field ops m field !! k
  = if bool_decide (k = field)
    then match dict_get k ops ≫= field_value with
         | Some v => Some v
         | None => m !! k
         end
    else m !! k.
Proof.
  unfold keep_field. case_bool_decide as Hk.
  - subst k. destruct (dict_get field ops ≫= field_value); [|done].
    apply lookup_insert_eq.
  - destruct (dict_get field ops ≫= field_value); [|done].
    by apply lookup_insert_ne.
Qed.

Lemma lookup_keep_fields (ops : dict) (fields : list string) (m : encoding_map) (k : string) :
  fold_left (keep_field ops) fields m !! k
  = if bool_decide (k ∈ fields)
    then match dict_get k ops ≫= field_value with
         | Some v => Some v
         | None => m !! k
         end
    else m !! k.
Proof.
  revert m. induction fields as [|field fields IH]; intros m; [done|].
  cbn [fold_left]. rewrite IH, lookup_keep_field.
  destruct (decide (k = field)) as [->|Hne].
  - rewrite (bool_decide_eq_true_2 (field = field)) by done.
    rewrite (bool_decide_eq_true_2 (field ∈ field :: fields)) by apply list_elem_of_here.
    case_bool_decide; by destruct (dict_get field ops ≫= field_value).
  - rewrite (bool_decide_eq_false_2 (k = field)) by done.
    apply (f_equal (λ b : bool, if b then _ else _)).
    apply bool_decide_ext. rewrite elem_of_cons. intuition congruence.
Qed.

Lemma lookup_with_section (e : dict) (m : encoding_map) (k : string) :
  with_section e m !! k
  = if bool_decide (k = "variables") then
      match dict_get "variables" e with Some v => Some v | None => m !! k end
    else if bool_decide (k = "match") then
      match dict_get "match" e with Some v => Some v | None => m !! k end
    else m !! k.
Proof.
  unfold with_section.
  destruct (decide (k = "variables")) as [->|Hv].
  { rewrite bool_decide_eq_true_2 by done.
    destruct (dict_get "variables" e); [apply lookup_insert_eq|].
    destruct (dict_get "match" e); [|done]. by apply lookup_insert_ne. }
  rewrite (bool_decide_eq_false_2 _ Hv).
  assert (Hskip : ∀ m' : encoding_map,
            (match dict_get "variables" e with
             | Some v => <["variables" := v]> m'
             | None => m'
             end) !! k = m' !! k).
  { intros m'. destruct (dict_get "variables" e); [|done]. by apply lookup_insert_ne. }
  rewrite Hskip.
  destruct (decide (k = "match")) as [->|Hm].
  { rewrite bool_decide_eq_true_2 by done.
    destruct (dict_get "match" e); [apply lookup_insert_eq | done]. }
  rewrite (bool_decide_eq_false_2 _ Hm).
  destruct (dict_get "match" e); [|done]. by apply lookup_insert_ne.
Qed.

(** The second half of [extract_encoding_info] on a mapping section. *)
Lemma extract_section (f e : dict) (m : encoding_map) :
  dict_get "encoding" f = Some (VDict e) →
  (has_encoding ← py_in "encoding" (VDict f);
   if has_encoding : bool then
     enc_data ← py_getitem (VDict f) "encoding";
     has_match ← py_in "match" enc_data;
     encoding ← (if has_match : bool then
                   mt ← py_getitem enc_data "match"; Ok (<["match" := mt]> m)
                 else Ok m);
     has_variables ← py_in "variables" enc_data;
     if has_variables : bool then
       vs ← py_getitem enc_data "variables"; Ok (<["variables" := vs]> encoding)
     else Ok encoding
   else Ok m) = Ok (with_section e m).
Proof.
  intros He. cbn [py_in py_getitem]. rewrite (dict_has_get _ _ _ He), He.
  cbn [mbind result_bind py_in py_getitem]. unfold with_section, dict_has.
  destruct (dict_get "match" e) as [mt|]; cbn [mbind result_bind];
    by destruct (dict_get "variables" e) as [vs|].
Qed.

Lemma extract_top_level (e : dict) :
  extract_encoding_info (VDict [("encoding", VDict e)]) = Ok (with_section e ∅).
Proof.
  unfold extract_encoding_info.
  change (py_in "opcodes" (VDict [("encoding", VDict e)])) with (Ok false).
  cbn [mbind result_bind]. by apply extract_section.
Qed.

(** The extractor on a format section whose [opcodes] is a mapping and
    whose [encoding], when present, is a mapping. *)
Lemma extract_encoding_info_sections (f ops : dict) :
  dict_get "opcodes" f = Some (VDict ops) →
  (dict_get "encoding" f = None ∨ ∃ e, dict_get "encoding" f = Some (VDict e)) →
  ∃ enc, extract_encoding_info (VDict f) = Ok enc
    ∧ ∀ k, k ≠ "match" → k ≠ "variables" →
        enc !! k = fold_left (keep_field ops)
                     ["funct7"; "funct3"; "funct6"; "funct2"; "opcode"] ∅ !! k.
Proof.
  intros Hops Henc. unfold extract_encoding_info.
  cbn [py_in py_getitem]. rewrite (dict_has_get _ _ _ Hops), Hops.
  cbn [mbind result_bind]. rewrite foldM_extract_field. cbn [mbind result_bind].
  destruct Henc as [Hnone|[e He]].
  - unfold dict_has. rewrite Hnone. cbn [mbind result_bind]. eauto.
  - rewrite (dict_has_get _ _ _ He), He. cbn [mbind result_bind].
    pose proof (extract_section f e
                  (fold_left (keep_field ops)
                     ["funct7"; "funct3"; "funct6"; "funct2"; "opcode"] ∅) He) as Hsec.
    cbn [py_in py_getitem] in Hsec. rewrite (dict_has_get _ _ _ He), He in Hsec.
    cbn [mbind result_bind] in Hsec. rewrite Hsec.
    eexists; split; [reflexivity|].
    intros k Hm Hv. rewrite lookup_with_section.
    by rewrite (bool_decide_eq_false_2 _ Hv), (bool_decide_eq_false_2 _ Hm).
Qed.

(** The loop visits the known fields, in an order of its own. *)
Lemma known_fields_order (k : string) :
  k ∈ ["funct7"; "funct3"; "funct6"; "funct2"; "opcode"] ↔ k ∈ known_fields.
Proof. unfold known_fields. rewrite !elem_of_cons, !elem_of_nil. tauto. Qed.

Lemma known_fields_not_section (k : string) :
  k ∈ known_fields → k ≠ "match" ∧ k ≠ "variables".
Proof.
  unfold known_fields. rewrite !elem_of_cons, !elem_of_nil.
  intros [->|[->|[->|[->|[->|[]]]]]]; by split.
Qed.

Example extract_integer_literal :
  extract_encoding_info (VDict [("opcodes", VDict [("funct3", VInt 5)])]) = Ok ∅.
Proof. reflexivity. Qed.

(** C3, as stated, fails: a field written directly as an integer literal
    (here [funct3: 5]) is not taken; the extracted encoding has no entry for
    it. *)
Lemma integer_literal_not_taken :
  ¬ (∀ (ops : dict) (field : string) (x : value),
       field ∈ known_fields → dict_get field ops = Some x → is_literal x = true →
       ∃ enc, extract_encoding_info (VDict [("opcodes", VDict ops)]) = Ok enc
              ∧ enc !! field = Some x).
Proof.
  intros Hclaim.
  destruct (Hclaim [("funct3", VInt 5)] "funct3" (VInt 5)) as (enc & Henc & Hfield).
  - unfold known_fields. rewrite !elem_of_cons. tauto.
  - reflexivity.
  - reflexivity.
  - rewrite extract_integer_literal in Henc. injection Henc as <-.
    by rewrite lookup_empty in Hfield.
Qed.

(** C3, amended: for each known opcode-field name in the [opcodes] mapping of
    a format section, the extractor takes the [value] entry when the field is
    a mapping with a [value] key and takes the field as it is when it is a
    string; a field of any other shape (a mapping without [value], a number, a
    boolean, null, a sequence) is skipped; names that are not known fields
    never reach the encoding, and none of this raises an error. *)
Theorem opcode_fields_extracted (f ops : dict) :
  dict_get "opcodes" f = Some (VDict ops) →
  (dict_get "encoding" f = None ∨ ∃ e, dict_get "encoding" f = Some (VDict e)) →
  ∃ enc, extract_encoding_info (VDict f) = Ok enc
    ∧ (∀ field, field ∈ known_fields →
         enc !! field = match dict_get field ops with
                        | Some (VDict d) => dict_get "value" d
                        | Some (VStr s) => Some (VStr s)
                        | _ => None
                        end)
    ∧ (∀ k, k ∉ known_fields → k ≠ "match" → k ≠ "variables" → enc !! k = None).
Proof.
  intros Hops Henc.
  destruct (extract_encoding_info_sections f ops Hops Henc) as (enc & Hex & Hlook).
  exists enc. split; [exact Hex|]. split.
  - intros field Hfield.
    destruct (known_fields_not_section field Hfield) as [Hm Hv].
    rewrite (Hlook field Hm Hv), lookup_keep_fields.
    rewrite bool_decide_eq_true_2 by (by apply known_fields_order).
    rewrite lookup_empty.
    destruct (dict_get field ops) as [[| | | | |]|]; cbn; try done.
    by destruct (dict_get "value" d).
  - intros k Hk Hm Hv. rewrite (Hlook k Hm Hv), lookup_keep_fields.
    rewrite bool_decide_eq_false_2 by (by rewrite known_fields_order).
    apply lookup_empty.
Qed.

Lemma opcode_fields_extracted_witness :
  ∃ enc,
    extract_encoding_info
      (VDict [("opcodes", VDict [("funct3", VStr "0b000");
                                 ("opcode", VDict [("value", VStr "0b0110011")]);
                                 ("funct7", VInt 0);
                                 ("width", VStr "32")])]) = Ok enc
    ∧ (∀ field, field ∈ known_fields →
         enc !! field = match dict_get field
                                [("funct3", VStr "0b000");
                                 ("opcode", VDict [("value", VStr "0b0110011")]);
                                 ("funct7", VInt 0);
                                 ("width", VStr "32")] with
                        | Some (VDict d) => dict_get "value" d
                        | Some (VStr s) => Some (VStr s)
                        | _ => None
                        end)
    ∧ (∀ k, k ∉ known_fields → k ≠ "match" → k ≠ "variables" → enc !! k = None).
Proof.
  apply (opcode_fields_extracted
           [("opcodes", VDict [("funct3", VStr "0b000");
                               ("opcode", VDict [("value", VStr "0b0110011")]);
                               ("funct7", VInt 0);
                               ("width", VStr "32")])]);
    [reflexivity | left; reflexivity].
Defined.

(** C2: on a record with a [format] mapping and a top-level [encoding]
    mapping, the encoding used for rendering is the encoding extracted from
    the format section with the entries extracted from the top-level section
    merged on top: an entry of the top-level section ([match], [variables])
    overwrites the entry of the same name from the format section, every
    other entry is the one of the format section. *)
Theorem merged_encoding_overlay (d f e : dict) (base : encoding_map) :
  dict_get "format" d = Some (VDict f) →
  dict_get "encoding" d = Some (VDict e) →
  extract_encoding_info (VDict f) = Ok base →
  ∃ top merged,
    extract_encoding_info (VDict [("encoding", VDict e)]) = Ok top
    ∧ merged_encoding (VDict d) = Ok merged
    ∧ top !! "match" = dict_get "match" e
    ∧ top !! "variables" = dict_get "variables" e
    ∧ (∀ k v, top !! k = Some v → merged !! k = Some v)
    ∧ (∀ k, top !! k = None → merged !! k = base !! k).
Proof.
  intros Hd He Hbase.
  exists (with_section e ∅), (with_section e ∅ ∪ base).
  split; [apply extract_top_level|]. split.
  { unfold merged_encoding. cbn [py_get]. rewrite Hd. cbn [mbind result_bind].
    rewrite Hbase. cbn [mbind result_bind py_in py_getitem].
    rewrite (dict_has_get _ _ _ He), He. cbn [mbind result_bind].
    by rewrite extract_top_level. }
  split; [|split; [|split]].
  - rewrite lookup_with_section. cbn. rewrite lookup_empty.
    by destruct (dict_get "match" e).
  - rewrite lookup_with_section. cbn. rewrite lookup_empty.
    by destruct (dict_get "variables" e).
  - intros k v Hk. by apply lookup_union_Some_l.
  - intros k Hk. by apply lookup_union_r.
Qed.

Lemma merged_encoding_overlay_witness :
  ∃ top merged,
    extract_encoding_info
      (VDict [("encoding", VDict [("match", VStr "1001----------10");
                                  ("variables", VList [VDict [("name", VStr "xd");
                                                              ("location", VStr "11-7")]])])])
    = Ok top
    ∧ merged_encoding add_record_encoded = Ok merged
    ∧ top !! "match"
      = dict_get "match" [("match", VStr "1001----------10");
                          ("variables", VList [VDict [("name", VStr "xd");
                                                      ("location", VStr "11-7")]])]
    ∧ top !! "variables"
      = dict_get "variables" [("match", VStr "1001----------10");
                              ("variables", VList [VDict [("name", VStr "xd");
                                                          ("location", VStr "11-7")]])]
    ∧ (∀ k v, top !! k = Some v → merged !! k = Some v)
    ∧ (∀ k, top !! k = None →
         merged !! k
         = (<["match" := VStr "old"]>
              (<["opcode" := VStr "0b01"]> (<["funct3" := VStr "0b000"]> ∅))
            : encoding_map) !! k).
Proof.
  apply (merged_encoding_overlay _
           [("opcodes", VDict [("funct3", VStr "0b000");
                               ("opcode", VDict [("value", VStr "0b01")])]);
            ("encoding", VDict [("match", VStr "old")])]);
    reflexivity.
Defined.

Example merged_match_is_top_level :
  (λ m : encoding_map, m !! "match") <$> merged_encoding add_record_encoded
  = Ok (Some (VStr "1001----------10")).
Proof. reflexivity. Qed.

(** ** The aggregator *)

(** A rendered block is never the empty text: each renderer starts its block
    with a line break. *)
Lemma convert_instruction_truthy (udb_data : value) (text : string) :
  convert_instruction udb_data = Ok text → truthy (VStr text) = true.
Proof.
  intros H. apply convert_instruction_inv in H
    as (? & ? & ? & ? & ? & ? & ? & ? & ? & ? & _ & _ & _ & _ & _ & _ & _ & ->).
  reflexivity.
Qed.

Lemma convert_csr_truthy (udb_data : value) (text : string) :
  convert_csr udb_data = Ok text → truthy (VStr text) = true.
Proof.
  unfold convert_csr. intros H. do 5 invert_bind H. by injection H as <-.
Qed.

Lemma convert_extension_truthy (udb_data : value) (text : string) :
  convert_extension udb_data = Ok text → truthy (VStr text) = true.
Proof.
  unfold convert_extension. intros H. do 3 invert_bind H. by injection H as <-.
Qed.

(** [process_udb_file], case by case. *)
Lemma process_udb_file_cases (f : yaml_file) :
  process_udb_file f
  = match file_load f with
    | YAMLError e => (["Error parsing " +:+ file_path f +:+ ": " +:+ e], Ok None)
    | Document (VDict (entry :: d)) =>
        let udb_data := VDict (entry :: d) in
        let kind := match dict_get "kind" (entry :: d) with
                    | Some k => k
                    | None => VStr "unknown"
                    end in
        if eq_str kind "instruction" then ([], Some <$> convert_instruction udb_data)
        else if eq_str kind "csr" then ([], Some <$> convert_csr udb_data)
        else if eq_str kind "extension" then ([], Some <$> convert_extension udb_data)
        else (["Skipping " +:+ file_path f +:+ ": unknown kind " +:+ sq +:+ py_str kind +:+ sq],
              Ok None)
    | Document _ => (["Skipping " +:+ file_path f +:+ ": invalid format"], Ok None)
    end.
Proof.
  unfold process_udb_file. destruct (file_load f) as [e|udb_data]; [done|].
  destruct udb_data as [|b|z|s|l|[|entry d]];
    try (cbn [is_dict negb]; rewrite orb_true_r; reflexivity); [done|].
  cbn [truthy is_dict negb orb py_get lift].
  unfold mbind, io_bind, lift, print, returns, mret, io_ret. cbn [fst snd app].
  set (kind := match dict_get "kind" (entry :: d) with
               | Some k => k
               | None => VStr "unknown"
               end).
  destruct (eq_str kind "instruction"); [by destruct (convert_instruction _)|].
  destruct (eq_str kind "csr"); [by destruct (convert_csr _)|].
  destruct (eq_str kind "extension"); [by destruct (convert_extension _)|].
  reflexivity.
Qed.

Lemma fmap_some_ok {A} (m : result A) (c : A) :
  Some <$> m = Ok (Some c) → m = Ok c.
Proof. destruct m; cbn; congruence. Qed.

Lemma fmap_some_not_none {A} (m : result A) : Some <$> m ≠ Ok None.
Proof. by destruct m. Qed.

(** A file that renders prints nothing, returns a block that is not empty,
    and is not a record of unrecognized kind. *)
Lemma rendered_process (f : yaml_file) (content : string) :
  rendered f = Some content →
  process_udb_file f = ([], Ok (Some content))
  ∧ truthy (VStr content) = true
  ∧ unrecognized_kind f = None.
Proof.
  unfold rendered, unrecognized_kind. rewrite process_udb_file_cases.
  destruct (file_load f) as [e|[| | | | |[|entry d]]]; try discriminate.
  cbn zeta.
  set (kind := match dict_get "kind" (entry :: d) with
               | Some k => k
               | None => VStr "unknown"
               end).
  destruct (eq_str kind "instruction") eqn:Ei; cbn [orb snd].
  { destruct (convert_instruction _) as [text|] eqn:E; [|discriminate].
    cbn. intros [= <-]. eauto using convert_instruction_truthy. }
  destruct (eq_str kind "csr") eqn:Ec; cbn [orb snd].
  { destruct (convert_csr _) as [text|] eqn:E; [|discriminate].
    cbn. intros [= <-]. eauto using convert_csr_truthy. }
  destruct (eq_str kind "extension") eqn:Ee; cbn [orb snd].
  { destruct (convert_extension _) as [text|] eqn:E; [|discriminate].
    cbn. intros [= <-]. eauto using convert_extension_truthy. }
  discriminate.
Qed.




Lemma length_file_blocks (files : list yaml_file) :
  length (flat_map file_blocks files) = 2 * rendered_count files.
Proof.
  unfold rendered_count. induction files as [|f files IH]; [done|].
  cbn [flat_map omap list_omap]. rewrite length_app, IH. unfold file_blocks.
  destruct (rendered f); cbn [length]; lia.
Qed.



Example directory_counts :
  rendered_count [add_file; bad_file; mstatus_file] = 2
  ∧ flat_map file_lines [add_file; bad_file; mstatus_file]
    = ["Processing add.yaml..."; "Processing bad.yaml...";
       "Skipping in/bad.yaml: unknown kind 'unknown_kind'";
       "Processing mstatus.yaml..."].
Proof. split; reflexivity. Qed.

Example directory_nothing_rendered :
  main_dir [bad_file] "out/RISCVGenerated.td"
  = (["Processing bad.yaml..."; "Skipping in/bad.yaml: unknown kind 'unknown_kind'";
      "No content found"], Ok None).
Proof. reflexivity. Qed.

Example directory_exception_aborts :
  main_dir [ {| file_path := "in/odd.yaml"; file_name := "odd.yaml";
                file_load := Document (VDict [("kind", VStr "instruction");
                                              ("name", VInt 7)]) |};
             add_file ] "out/RISCVGenerated.td"
  = (["Processing odd.yaml..."], Raise AttributeError).
Proof. reflexivity. Qed.

(** ** Independence of the records *)

(** What [process_udb_file] returns depends on the decoded record only; the
    path of the file shows in the printed lines alone. *)
Lemma process_result_of_record (f g : yaml_file) :
  file_load f = file_load g → (process_udb_file f).2 = (process_udb_file g).2.
Proof.
  intros H. rewrite !process_udb_file_cases, <- H.
  destruct (file_load f) as [e|[| | | | |[|entry d]]]; try reflexivity.
  cbn zeta.
  destruct (eq_str _ "instruction"); [reflexivity|].
  destruct (eq_str _ "csr"); [reflexivity|].
  destruct (eq_str _ "extension"); reflexivity.
Qed.

(** One turn of the loop appends the entries of the file, whatever was
    collected before. *)
Lemma collect_result (all_content : list string) (f : yaml_file) :
  (collect all_content f).2
  = match (process_udb_file f).2 with
    | Ok _ => Ok (all_content ++ file_blocks f)
    | Raise e => Raise e
    end.
Proof.
  unfold collect, file_blocks.
  destruct (process_udb_file f) as [lines [[content|]|e]] eqn:Hp;
    unfold mbind, io_bind, print, returns, mret, io_ret; cbn [fst snd].
  - assert (Hr : rendered f = Some content) by (unfold rendered; by rewrite Hp).
    destruct (rendered_process f content Hr) as (_ & Ht & _). by rewrite Ht, Hr.
  - assert (Hr : rendered f = None) by (unfold rendered; by rewrite Hp).
    by rewrite Hr, app_nil_r.
  - reflexivity.
Qed.

Lemma io_foldM_collect_result (files : list yaml_file) (acc all : list string) :
  (io_foldM collect acc files).2 = Ok all → all = acc ++ flat_map file_blocks files.
Proof.
  revert acc. induction files as [|f files IH]; intros acc.
  - cbn. intros [= <-]. by rewrite app_nil_r.
  - cbn [io_foldM flat_map]. unfold mbind, io_bind.
    pose proof (collect_result acc f) as Hc.
    destruct (collect acc f) as [lines [acc'|e]]; cbn [fst snd] in *; [|discriminate].
    intros Hrest. apply IH in Hrest as ->.
    destruct (process_udb_file f).2; [|discriminate].
    injection Hc as ->. by rewrite <- app_assoc.
Qed.

(** C8: the block rendered for a record is a function of the decoded record
    alone.  Two files holding identical records get identical results,
    whatever their paths; a turn of the directory loop appends the same
    entries whatever was collected before; and in a batch that completes,
    the aggregated content is the concatenation of what each file
    contributes on its own, so no record influences the block of another. *)
Theorem record_pipeline_pure (f g : yaml_file) (before after : list yaml_file)
    (acc : list string) :
  file_load f = file_load g →
  (process_udb_file f).2 = (process_udb_file g).2
  ∧ rendered f = rendered g
  ∧ (collect acc f).2 = (app acc) <$> (collect [] f).2
  ∧ ∀ all, (io_foldM collect acc (before ++ f :: after)).2 = Ok all →
      all = acc ++ flat_map file_blocks before ++ file_blocks f
                ++ flat_map file_blocks after.
Proof.
  intros Hload. pose proof (process_result_of_record f g Hload) as Hsame.
  split; [exact Hsame|]. split; [unfold rendered; by rewrite Hsame|]. split.
  - rewrite !collect_result. by destruct (process_udb_file f).2.
  - intros all Hall. apply io_foldM_collect_result in Hall as ->.
    by rewrite flat_map_app.
Qed.

Lemma record_pipeline_pure_witness :
  (process_udb_file add_file).2 = (process_udb_file add_copy_file).2
  ∧ rendered add_file = rendered add_copy_file
  ∧ (collect ["// earlier"] add_file).2 = (app ["// earlier"]) <$> (collect [] add_file).2
  ∧ ∀ all, (io_foldM collect ["// earlier"] ([mstatus_file] ++ add_file :: [bad_file])).2
           = Ok all →
      all = ["// earlier"] ++ flat_map file_blocks [mstatus_file] ++ file_blocks add_file
                ++ flat_map file_blocks [bad_file].
Proof.
  apply (record_pipeline_pure add_file add_copy_file [mstatus_file] [bad_file]
           ["// earlier"]).
  reflexivity.
Defined.

(** * Further properties of the code *)

(** ** The classifier beyond the inheritance reference *)

(** X1: when the inheritance step selects no family and the bit pattern does
    not make the record compressed, the family is decided by the assembly
    text alone: V when it contains [vm] together with [vs1] or [vs2], and R
    otherwise. *)
Theorem assembly_decides_vector (d : dict) (format_data : value) (s : string) :
  py_get (VDict d) "format" (VDict []) = Ok format_data →
  inherit_family format_data = Ok None →
  match_is_compressed (VDict d) = Ok false →
  py_get (VDict d) "assembly" (VStr EmptyString) = Ok (VStr s) →
  get_instruction_format (VDict d)
  = Ok (if Str.contains "vm" s && (Str.contains "vs1" s || Str.contains "vs2" s)
        then FV else FR).
Proof.
  intros Hfmt Hinh Hc Hasm. unfold get_instruction_format.
  rewrite Hfmt. cbn [mbind result_bind]. rewrite Hinh. cbn [mbind result_bind].
  rewrite Hc. cbn [mbind result_bind]. rewrite Hasm. cbn [mbind result_bind py_in].
  destruct (Str.contains "vm" s); [|done]. cbn [mbind result_bind andb].
  destruct (Str.contains "vs1" s); [done|]. cbn [mbind result_bind orb].
  by destruct (Str.contains "vs2" s).
Qed.

Lemma assembly_decides_vector_witness :
  get_instruction_format vadd_record
  = Ok (if Str.contains "vm" "vd, vs2, vs1, vm"
           && (Str.contains "vs1" "vd, vs2, vs1, vm" || Str.contains "vs2" "vd, vs2, vs1, vm")
        then FV else FR).
Proof.
  apply (assembly_decides_vector _ (VDict []) "vd, vs2, vs1, vm"); reflexivity.
Defined.

(** X2: without a family selected by the inheritance reference the
    classifier never answers I, S, B, U or J: whatever it returns is C, V or
    R. *)
Theorem families_without_reference (d : dict) (format_data : value) (f : family) :
  py_get (VDict d) "format" (VDict []) = Ok format_data →
  inherit_family format_data = Ok None →
  get_instruction_format (VDict d) = Ok f →
  f = FC ∨ f = FV ∨ f = FR.
Proof.
  intros Hfmt Hinh. unfold get_instruction_format.
  rewrite Hfmt. cbn [mbind result_bind]. rewrite Hinh. cbn [mbind result_bind].
  destruct (match_is_compressed (VDict d)) as [[]|]; cbn [mbind result_bind];
    [intros [= <-]; tauto| |discriminate].
  destruct (py_get (VDict d) "assembly" (VStr EmptyString)) as [a|];
    cbn [mbind result_bind]; [|discriminate].
  destruct (py_in "vm" a) as [[]|]; cbn [mbind result_bind];
    [|intros [= <-]; tauto|discriminate].
  destruct (py_in "vs1" a) as [[]|]; cbn [mbind result_bind];
    [intros [= <-]; tauto| |discriminate].
  destruct (py_in "vs2" a) as [[]|]; cbn [mbind result_bind];
    [intros [= <-]; tauto|intros [= <-]; tauto|discriminate].
Qed.

Lemma families_without_reference_witness : FV = FC ∨ FV = FV ∨ FV = FR.
Proof.
  apply (families_without_reference
           [("kind", VStr "instruction"); ("name", VStr "vadd.vv");
            ("assembly", VStr "vd, vs2, vs1, vm")] (VDict []) FV); reflexivity.
Defined.

(** X3: an inheritance reference given as an empty list makes the classifier
    raise [IndexError], whatever else the record holds. *)
Theorem empty_reference_list_raises (d f : dict) :
  dict_get "format" d = Some (VDict f) →
  dict_get "$inherits" f = Some (VList []) →
  get_instruction_format (VDict d) = Raise IndexError.
Proof.
  intros Hd Hf. unfold get_instruction_format. cbn [py_get]. rewrite Hd.
  cbn [mbind result_bind]. unfold inherit_family. cbn [py_in py_getitem].
  by rewrite (dict_has_get _ _ _ Hf), Hf.
Qed.

Lemma empty_reference_list_raises_witness :
  get_instruction_format
    (VDict [("name", VStr "add"); ("format", VDict [("$inherits", VList [])]);
            ("assembly", VStr "rd, rs1, rs2")]) = Raise IndexError.
Proof.
  apply (empty_reference_list_raises _ [("$inherits", VList [])]); reflexivity.
Defined.

(** X4: when the inheritance step selects no family and the top-level
    [encoding] is a mapping whose [match] is null, a boolean, an integer (an
    unquoted run of digits is decoded as one), a sequence or a mapping, the
    classifier raises [AttributeError]. *)
Theorem non_string_match_raises (d enc : dict) (format_data m : value) :
  py_get (VDict d) "format" (VDict []) = Ok format_data →
  inherit_family format_data = Ok None →
  dict_get "encoding" d = Some (VDict enc) →
  dict_get "match" enc = Some m →
  non_text m = true →
  get_instruction_format (VDict d) = Raise AttributeError.
Proof.
  intros Hfmt Hinh Henc Hm Hstr. unfold get_instruction_format.
  rewrite Hfmt. cbn [mbind result_bind]. rewrite Hinh. cbn [mbind result_bind].
  unfold match_is_compressed. cbn [py_in py_getitem].
  rewrite (dict_has_get _ _ _ Henc), Henc. cbn [mbind result_bind py_in py_getitem].
  rewrite (dict_has_get _ _ _ Hm), Hm. cbn [mbind result_bind].
  by destruct m.
Qed.

Lemma non_string_match_raises_witness :
  get_instruction_format
    (VDict [("name", VStr "c.nop"); ("encoding", VDict [("match", VInt 1)])])
  = Raise AttributeError.
Proof.
  apply (non_string_match_raises _ [("match", VInt 1)] (VDict []) (VInt 1)); reflexivity.
Defined.

(** X5: a record whose [format] entry is present but is null, a boolean or
    an integer (a key left without a value is decoded as null) makes both the
    classifier and the extraction of the encoding raise [TypeError]. *)
Theorem scalar_format_raises (d : dict) (v : value) :
  dict_get "format" d = Some v →
  is_scalar v = true →
  get_instruction_format (VDict d) = Raise TypeError
  ∧ merged_encoding (VDict d) = Raise TypeError.
Proof.
  intros Hd Hv. unfold get_instruction_format, merged_encoding.
  cbn [py_get]. rewrite Hd. cbn [mbind result_bind].
  by destruct v.
Qed.

Lemma scalar_format_raises_witness :
  get_instruction_format (VDict [("name", VStr "add"); ("format", VNone)]) = Raise TypeError
  ∧ merged_encoding (VDict [("name", VStr "add"); ("format", VNone)]) = Raise TypeError.
Proof. apply (scalar_format_raises _ VNone); reflexivity. Defined.

(** ** The operand parser as a whole *)

(** One turn of the loop appends at most one operand, of a known form. *)
Lemma operand_step_appends (f : family) (output inp : list string) (part : string) :
  ∃ o' i',
    operand_step f (output, inp) part = (output ++ o', inp ++ i')
    ∧ length o' + length i' ≤ 1
    ∧ Forall (emitted f) (o' ++ i')
    ∧ Forall (λ op, op = "GPR:$rd" ∨ (f = FV ∧ op = "VR:$vd")) o'.
Proof.
  unfold operand_step.
  assert (Hnone : ∃ o' i' : list string,
             (output, inp) = (output ++ o', inp ++ i')
             ∧ length o' + length i' ≤ 1
             ∧ Forall (emitted f) (o' ++ i')
             ∧ Forall (λ op, op = "GPR:$rd" ∨ (f = FV ∧ op = "VR:$vd")) o').
  { exists [], []. rewrite !app_nil_r.
    split; [done|]. split; [cbn; lia|]. split; constructor. }
  assert (Hin : ∀ op, emitted f op →
             ∃ o' i' : list string,
               (output, inp ++ [op]) = (output ++ o', inp ++ i')
               ∧ length o' + length i' ≤ 1
               ∧ Forall (emitted f) (o' ++ i')
               ∧ Forall (λ op, op = "GPR:$rd" ∨ (f = FV ∧ op = "VR:$vd")) o').
  { intros op Hop. exists [], [op]. rewrite app_nil_r.
    split; [done|]. split; [cbn; lia|].
    split; [apply Forall_cons_2; [exact Hop|constructor] | constructor]. }
  assert (Hout : ∀ op, emitted f op → op = "GPR:$rd" ∨ (f = FV ∧ op = "VR:$vd") →
             ∃ o' i' : list string,
               (output ++ [op], inp) = (output ++ o', inp ++ i')
               ∧ length o' + length i' ≤ 1
               ∧ Forall (emitted f) (o' ++ i')
               ∧ Forall (λ op, op = "GPR:$rd" ∨ (f = FV ∧ op = "VR:$vd")) o').
  { intros op Hop Hd. exists [op], []. rewrite app_nil_r.
    split; [done|]. split; [cbn; lia|].
    split; apply Forall_cons_2; (assumption || constructor). }
  destruct (Str.startswith part "v" && bool_decide (f = FV)) eqn:Ev.
  - apply andb_true_iff in Ev as [_ Hf%bool_decide_eq_true_1].
    destruct (String.eqb part "vd"); [apply Hout; [by constructor|by right]|].
    destruct (Str.startswith part "vs"); [apply Hin; by constructor|].
    destruct (String.eqb part "vm"); [apply Hin; by constructor|]. exact Hnone.
  - destruct (Str.startswith part "x" || str_mem part ["rd"; "rs1"; "rs2"; "xs1"; "xd"]).
    + destruct (str_mem part ["xd"; "rd"]);
        [apply Hout; [apply (emitted_gpr f "rd")|by left]|].
      destruct (str_mem part ["xs1"; "rs1"]); [apply Hin, (emitted_gpr f "rs1")|].
      destruct (str_mem part ["xs2"; "rs2"]); [apply Hin, (emitted_gpr f "rs2")|].
      apply Hin, emitted_gpr.
    + destruct (Str.contains "imm" (Str.lower part) || Str.isdigit part);
        [apply Hin, emitted_imm | exact Hnone].
Qed.

Lemma operand_fold_appends (f : family) (parts : list string) (output inp : list string) :
  ∃ o' i',
    fold_left (operand_step f) parts (output, inp) = (output ++ o', inp ++ i')
    ∧ length o' + length i' ≤ length parts
    ∧ Forall (emitted f) (o' ++ i')
    ∧ Forall (λ op, op = "GPR:$rd" ∨ (f = FV ∧ op = "VR:$vd")) o'.
Proof.
  revert output inp. induction parts as [|part parts IH]; intros output inp.
  - exists [], []. rewrite !app_nil_r.
    split; [done|]. split; [cbn; lia|]. split; constructor.
  - cbn [fold_left].
    destruct (operand_step_appends f output inp part) as (o1 & i1 & -> & Hl1 & He1 & Hd1).
    destruct (IH (output ++ o1) (inp ++ i1)) as (o2 & i2 & -> & Hl2 & He2 & Hd2).
    exists (o1 ++ o2), (i1 ++ i2). rewrite !app_assoc. split; [done|].
    apply Forall_app in He1 as [Ho1 Hi1]. apply Forall_app in He2 as [Ho2 Hi2].
    split; [rewrite !length_app; cbn [length]; lia|].
    split; [|by apply Forall_app].
    rewrite <- !app_assoc. repeat (apply Forall_app; split); assumption.
Qed.

(** What a successful parse returns, in terms of the tokens. *)
Lemma parse_assembly_operands_inv (assembly_str : value) (f : family)
    (output inp : list string) :
  parse_assembly_operands assembly_str f = Ok (output, inp) →
  (truthy assembly_str = false ∧ output = [] ∧ inp = [])
  ∨ ∃ s, assembly_str = VStr s
         ∧ fold_left (operand_step f) (map Str.strip (Str.split s ",")) ([], [])
           = (output, inp).
Proof.
  unfold parse_assembly_operands. destruct (truthy assembly_str) eqn:Et; cbn [negb].
  - destruct assembly_str as [| | |s| |]; try discriminate.
    cbn [py_split mbind result_bind]. intros [= H]. right. by exists s.
  - intros [= <- <-]. by left.
Qed.

Lemma length_split_go (sep : string) (skip : nat) (s : string) :
  0 < length (Str.split_go sep skip s).
Proof.
  revert skip. induction s as [|c t IH]; intros skip; cbn [Str.split_go]; [cbn; lia|].
  destruct skip; [|apply IH].
  destruct (String.prefix sep (String c t)); [cbn [length]; lia|].
  specialize (IH 0). destruct (Str.split_go sep 0 t); cbn [length] in *; lia.
Qed.

(** X6: a successful parse returns at most one operand per comma-separated
    token of the assembly string. *)
Theorem operands_bounded_by_tokens (s : string) (f : family) (output inp : list string) :
  parse_assembly_operands (VStr s) f = Ok (output, inp) →
  length output + length inp ≤ length (Str.split s ",").
Proof.
  intros [(_ & -> & ->)|(s' & [= <-] & Hfold)]%parse_assembly_operands_inv.
  - cbn [length]. pose proof (length_split_go "," 0 s). unfold Str.split. lia.
  - destruct (operand_fold_appends f (map Str.strip (Str.split s ",")) [] [])
      as (o' & i' & Hfold' & Hlen & _).
    rewrite Hfold in Hfold'. cbn [app] in Hfold'. injection Hfold' as -> ->.
    by rewrite length_map in Hlen.
Qed.

Lemma operands_bounded_by_tokens_witness :
  length ["GPR:$rd"] + length ["GPR:$rs1"; "simm12:$imm"]
  ≤ length (Str.split "rd, rs1, (unused), imm" ",").
Proof.
  apply (operands_bounded_by_tokens "rd, rs1, (unused), imm" FI). reflexivity.
Defined.

(** X7: every output operand a parse returns is the general-purpose
    destination [GPR:$rd], or, under family V only, the vector destination
    [VR:$vd]; no other token ever lands in the outs group. *)
Theorem outputs_are_destinations (assembly_str : value) (f : family)
    (output inp : list string) :
  parse_assembly_operands assembly_str f = Ok (output, inp) →
  Forall (λ op, op = "GPR:$rd" ∨ (f = FV ∧ op = "VR:$vd")) output.
Proof.
  intros [(_ & -> & ->)|(s & -> & Hfold)]%parse_assembly_operands_inv; [constructor|].
  destruct (operand_fold_appends f (map Str.strip (Str.split s ",")) [] [])
    as (o' & i' & Hfold' & _ & _ & Hd).
  rewrite Hfold in Hfold'. cbn [app] in Hfold'. by injection Hfold' as -> ->.
Qed.

Lemma outputs_are_destinations_witness :
  Forall (λ op, op = "GPR:$rd" ∨ (FV = FV ∧ op = "VR:$vd")) ["VR:$vd"; "GPR:$rd"].
Proof.
  apply (outputs_are_destinations (VStr "vd, xd, vs1, 4") FV _ ["VR:$vs1"; "simm12:$imm"]).
  reflexivity.
Defined.

(** X8: the parser returns on every string and on every falsy value; on a
    truthy value that is a boolean, an integer, a sequence or a mapping
    ([true], a number other than zero, a sequence or mapping that is not
    empty) it raises [AttributeError]. *)
Theorem parse_returns_or_raises (assembly_str : value) (f : family) :
  (truthy assembly_str = false ∨ is_str assembly_str = true →
   ∃ parsed, parse_assembly_operands assembly_str f = Ok parsed)
  ∧ (truthy assembly_str = true → non_text assembly_str = true →
     parse_assembly_operands assembly_str f = Raise AttributeError).
Proof.
  unfold parse_assembly_operands. split.
  - intros [Hfalsy|Hstr].
    + rewrite Hfalsy. by eexists.
    + destruct assembly_str as [| | |s| |]; try discriminate Hstr.
      destruct (negb (truthy (VStr s))); by eexists.
  - intros Ht Hn. rewrite Ht. by destruct assembly_str.
Qed.

Example parse_list_assembly :
  parse_assembly_operands (VList [VStr "rd"; VStr "rs1"]) FR = Raise AttributeError.
Proof. reflexivity. Qed.

(** ** The assembly format *)

Lemma split_go_other (c : ascii) (t : string) :
  Ascii.eqb c ":" = false →
  Str.split_go ":$" 0 (String c t)
  = match Str.split_go ":$" 0 t with
    | h :: r => String c h :: r
    | [] => [String c EmptyString]
    end.
Proof. intros H. cbn [Str.split_go]. by rewrite prefix_cons, H. Qed.

Lemma split_go_separator (part : string) :
  Str.split_go ":$" 0 (":$" +:+ part) = EmptyString :: Str.split_go ":$" 0 part.
Proof.
  change (":$" +:+ part) with (String ":" (String "$" part)).
  cbn [Str.split_go]. by rewrite !prefix_cons, prefix_empty.
Qed.

Lemma split_operand_prefix (c1 c2 c3 : ascii) (part : string) :
  Ascii.eqb c1 ":" = false → Ascii.eqb c2 ":" = false → Ascii.eqb c3 ":" = false →
  ∃ h r, Str.split (String c1 (String c2 (String c3 (":$" +:+ part)))) ":$"
         = String c1 (String c2 (String c3 EmptyString)) :: h :: r.
Proof.
  intros H1 H2 H3. unfold Str.split.
  rewrite (split_go_other c1), (split_go_other c2), (split_go_other c3) by assumption.
  rewrite split_go_separator.
  pose proof (length_split_go ":$" 0 part) as Hlen.
  destruct (Str.split_go ":$" 0 part) as [|h r]; [cbn in Hlen; lia|]. eauto.
Qed.

Lemma asm_name_gpr (part : string) : ∃ x, asm_name ("GPR:$" +:+ part) = Ok x.
Proof.
  unfold asm_name.
  destruct (split_operand_prefix "G" "P" "R" part) as (h & r & H); [done..|].
  change ("GPR:$" +:+ part) with (String "G" (String "P" (String "R" (":$" +:+ part)))).
  rewrite H. eauto.
Qed.

Lemma asm_name_vr (part : string) : ∃ x, asm_name ("VR:$" +:+ part) = Ok x.
Proof.
  unfold asm_name, Str.split.
  change ("VR:$" +:+ part) with (String "V" (String "R" (":$" +:+ part))).
  rewrite (split_go_other "V"), (split_go_other "R"), split_go_separator by done.
  pose proof (length_split_go ":$" 0 part) as Hlen.
  destruct (Str.split_go ":$" 0 part) as [|h r]; [cbn in Hlen; lia|]. eauto.
Qed.

Lemma asm_name_emitted (f : family) (op : string) :
  emitted f op → ∃ x, asm_name op = Ok x.
Proof.
  intros [_|part _|_|part|].
  - by eexists.
  - apply asm_name_vr.
  - by eexists.
  - apply asm_name_gpr.
  - destruct f; by eexists.
Qed.

Lemma mapM_ok {A B} (g : A → result B) (l : list A) :
  Forall (λ a, ∃ b, g a = Ok b) l → ∃ bs, mapM g l = Ok bs.
Proof.
  induction 1 as [|a l [b Hb] _ [bs Hbs]]; [by eexists|].
  cbn [mapM]. rewrite Hb. cbn [mbind result_bind]. rewrite Hbs. by eexists.
Qed.

Lemma default_operands_named (f : family) (output inp : list string) :
  Forall (λ op, ∃ x, asm_name op = Ok x) (output ++ inp) →
  Forall (λ op, ∃ x, asm_name op = Ok x)
         ((default_operands f (output, inp)).1 ++ (default_operands f (output, inp)).2).
Proof.
  intros H.
  destruct (bool_decide (output = []) && bool_decide (inp = [])) eqn:E.
  - apply andb_true_iff in E as [Ho%bool_decide_eq_true_1 Hi%bool_decide_eq_true_1].
    subst output inp. rewrite default_operands_shape.
    destruct f; cbn [fallback_shape fst snd app];
      repeat (apply Forall_cons_2; [by eexists|]); apply Forall_nil_2.
  - unfold default_operands. rewrite E. exact H.
Qed.

Lemma length_mapM {A B} (g : A → result B) (l : list A) (bs : list B) :
  mapM g l = Ok bs → length bs = length l.
Proof.
  revert bs. induction l as [|a l IH]; intros bs; cbn [mapM].
  - by intros [= <-].
  - destruct (g a); cbn [mbind result_bind]; [|discriminate].
    destruct (mapM g l) as [bs'|]; cbn [mbind result_bind]; [|discriminate].
    intros [= <-]. cbn [length]. by rewrite (IH bs').
Qed.

Lemma asm_names_exist (assembly_str : value) (f : family) (parsed : operands) :
  parse_assembly_operands assembly_str f = Ok parsed →
  ∃ out_parts in_parts,
    mapM asm_name (default_operands f parsed).1 = Ok out_parts
    ∧ mapM asm_name (default_operands f parsed).2 = Ok in_parts.
Proof.
  intros Hparse. destruct parsed as [output inp].
  assert (Hem : Forall (emitted f) (output ++ inp)).
  { apply parse_assembly_operands_inv in Hparse as [(_ & -> & ->)|(s & -> & Hfold)];
      [constructor|].
    destruct (operand_fold_appends f (map Str.strip (Str.split s ",")) [] [])
      as (o' & i' & Hfold' & _ & He & _).
    rewrite Hfold in Hfold'. cbn [app] in Hfold'. by injection Hfold' as -> ->. }
  assert (Hok : Forall (λ op, ∃ x, asm_name op = Ok x) (output ++ inp)).
  { eapply Forall_impl; [exact Hem|]. intros op. apply asm_name_emitted. }
  apply (default_operands_named f) in Hok. apply Forall_app in Hok as [Ho Hi].
  destruct (mapM_ok _ _ Ho) as [out_parts Hout].
  destruct (mapM_ok _ _ Hi) as [in_parts Hin].
  by exists out_parts, in_parts.
Qed.

Lemma parse_string_returns (s : string) (f : family) :
  ∃ parsed, parse_assembly_operands (VStr s) f = Ok parsed.
Proof.
  unfold parse_assembly_operands. destruct (negb (truthy (VStr s))); by eexists.
Qed.

(** X9: the assembly format of a block can always be built: every operand
    that a parse returns, and every default operand, splits at [:$] into at
    least two fields, so the index [1] of lines 142 and 144 never raises
    [IndexError]. *)
Theorem asm_format_never_raises (assembly_str : value) (f : family) (parsed : operands) :
  parse_assembly_operands assembly_str f = Ok parsed →
  ∃ out_parts in_parts,
    mapM asm_name (default_operands f parsed).1 = Ok out_parts
    ∧ mapM asm_name (default_operands f parsed).2 = Ok in_parts
    ∧ length out_parts = length (default_operands f parsed).1
    ∧ length in_parts = length (default_operands f parsed).2.
Proof.
  intros Hparse.
  destruct (asm_names_exist _ _ _ Hparse) as (out_parts & in_parts & Hout & Hin).
  exists out_parts, in_parts.
  split; [exact Hout|]. split; [exact Hin|].
  split; eapply length_mapM; eassumption.
Qed.

Lemma asm_format_never_raises_witness :
  ∃ out_parts in_parts,
    mapM asm_name (default_operands FR (["GPR:$rd"], ["GPR:$x:$y"; "GPR:$rs2"])).1
    = Ok out_parts
    ∧ mapM asm_name (default_operands FR (["GPR:$rd"], ["GPR:$x:$y"; "GPR:$rs2"])).2
      = Ok in_parts
    ∧ length out_parts
      = length (default_operands FR (["GPR:$rd"], ["GPR:$x:$y"; "GPR:$rs2"])).1
    ∧ length in_parts
      = length (default_operands FR (["GPR:$rd"], ["GPR:$x:$y"; "GPR:$rs2"])).2.
Proof.
  apply (asm_format_never_raises (VStr "rd, x:$y, rs2") FR). reflexivity.
Defined.

Example asm_name_nested_separator :
  mapM asm_name ["GPR:$x:$y"; "GPR:$"] = Ok ["$x"; "$"].
Proof. reflexivity. Qed.

(** ** The description and the identifier *)

Lemma length_take (n : nat) (s : string) :
  String.length (Str.take n s) = Nat.min n (String.length s).
Proof.
  revert s. induction n as [|n IH]; intros [|c t]; cbn; try done.
  by rewrite IH.
Qed.

Lemma length_append (s t : string) :
  String.length (s +:+ t) = String.length s + String.length t.
Proof. induction s as [|c s IH]; simpl; [done|]. by rewrite IH. Qed.

(** X10: the description written into the comment of an instruction or
    register block never exceeds 100 characters; a cleaned description longer
    than that is cut to its first 97 characters followed by three dots. *)
Theorem description_at_most_100 (desc_clean : string) :
  String.length (truncate_description desc_clean) ≤ 100
  ∧ (100 < String.length desc_clean →
     truncate_description desc_clean = Str.take 97 desc_clean +:+ "..."
     ∧ String.length (truncate_description desc_clean) = 100)
  ∧ (String.length desc_clean ≤ 100 → truncate_description desc_clean = desc_clean).
Proof.
  unfold truncate_description.
  destruct (Nat.ltb_spec 100 (String.length desc_clean)) as [Hlong|Hshort].
  - assert (Hlen : String.length (Str.take 97 desc_clean +:+ "...") = 100).
    { rewrite length_append, length_take. cbn [String.length]. lia. }
    split; [lia|]. split; [done|lia].
  - split; [lia|]. split; [lia|done].
Qed.

Lemma replace_char (s : string) (c c' : ascii) :
  Str.replace s (String c EmptyString) (String c' EmptyString)
  = Str.map_chars (λ x, if Ascii.eqb x c then c' else x) s.
Proof.
  unfold Str.replace. induction s as [|a t IH]; [done|].
  cbn [Str.replace_go Str.map_chars]. rewrite prefix_single.
  cbn [String.length Nat.sub]. destruct (Ascii.eqb a c); cbn; by rewrite IH.
Qed.

Lemma length_map_chars (g : ascii → ascii) (s : string) :
  String.length (Str.map_chars g s) = String.length s.
Proof. induction s as [|a t IH]; cbn; [done|]. by rewrite IH. Qed.

Lemma map_chars_compose (g h : ascii → ascii) (s : string) :
  Str.map_chars g (Str.map_chars h s) = Str.map_chars (λ x, g (h x)) s.
Proof. induction s as [|a t IH]; cbn; [done|]. by rewrite IH. Qed.

Lemma contains_char_map (c : ascii) (g : ascii → ascii) (s : string) :
  (∀ x, Ascii.eqb (g x) c = false) →
  Str.contains (String c EmptyString) (Str.map_chars g s) = false.
Proof.
  intros Hg. induction s as [|a t IH]; [done|].
  cbn [Str.map_chars Str.contains]. by rewrite prefix_single, Hg, IH.
Qed.

(** X11: for a name that is a string of ASCII characters the identifier has
    the length of the name and contains neither a dot nor a dash; a name that
    is null, a boolean, an integer, a sequence or a mapping raises
    [AttributeError].  (Outside ASCII the upper-case form of a character can
    be longer than the character, which the model of [upper] does not
    cover.) *)
Theorem identifier_without_dot_or_dash (s : string) (name : value) :
  Str.all_chars is_ascii_char s = true →
  non_text name = true →
  (∃ t, tablegen_name (VStr s) = Ok t
        ∧ String.length t = String.length s
        ∧ Str.contains "." t = false
        ∧ Str.contains "-" t = false)
  ∧ tablegen_name name = Raise AttributeError.
Proof.
  intros _ Hname. split.
  - unfold tablegen_name. cbn [py_upper mbind result_bind].
    eexists; split; [reflexivity|].
    rewrite (replace_char _ "." "_"), (replace_char _ "-" "_"), map_chars_compose.
    split; [by rewrite length_map_chars; apply length_map_chars|].
    split; apply contains_char_map; intros x;
      destruct (Ascii.eqb_spec x ".") as [->|?]; try reflexivity;
      destruct (Ascii.eqb_spec x "-") as [->|?]; try reflexivity;
      by apply Ascii.eqb_neq.
  - by destruct name.
Qed.

Lemma identifier_without_dot_or_dash_witness :
  (∃ t, tablegen_name (VStr "c.addi-w") = Ok t
        ∧ String.length t = String.length "c.addi-w"
        ∧ Str.contains "." t = false
        ∧ Str.contains "-" t = false)
  ∧ tablegen_name (VInt 7) = Raise AttributeError.
Proof.
  apply (identifier_without_dot_or_dash "c.addi-w" (VInt 7)); reflexivity.
Defined.

Example identifier_of_compressed : tablegen_name (VStr "c.addi-w") = Ok "C_ADDI_W".
Proof. reflexivity. Qed.










Example clean_description_lines :
  clean_description ("Adds  two" +:+ nl +:+ "registers.    Done. ")
  = "Adds two registers.  Done.".
Proof. reflexivity. Qed.

(** ** When the register and extension renderers return *)

(** X13: on a mapping, [convert_csr] returns a block when the name and the
    description (each when present) are strings.  It raises [AttributeError]
    when the description is null (a key left without a value), a boolean, an
    integer, a sequence or a mapping, and also when the description is a
    string and the name is one of these. *)
Theorem csr_renders_or_raises (d : dict) :
  (is_str (entry_or d "name" (VStr "unknown")) = true →
   is_str (entry_or d "description" (VStr EmptyString)) = true →
   ∃ text, convert_csr (VDict d) = Ok text)
  ∧ (non_text (entry_or d "description" (VStr EmptyString)) = true →
     convert_csr (VDict d) = Raise AttributeError)
  ∧ (is_str (entry_or d "description" (VStr EmptyString)) = true →
     non_text (entry_or d "name" (VStr "unknown")) = true →
     convert_csr (VDict d) = Raise AttributeError).
Proof.
  unfold convert_csr, entry_or. cbn [py_get mbind result_bind].
  destruct (match dict_get "description" d with
            | Some x => x
            | None => VStr EmptyString
            end) as [| | |desc| |]; cbn [py_strip mbind result_bind is_str non_text];
    try (split; [intros _ [=] | split; [reflexivity | intros [=]]]).
  destruct (match dict_get "name" d with
            | Some x => x
            | None => VStr "unknown"
            end) as [| | |name| |];
    cbn [tablegen_name py_upper mbind result_bind is_str non_text];
    try (split; [intros [=] | split; [intros [=] | reflexivity]]).
  split; [eauto | split; [intros [=] | intros _ [=]]].
Qed.

Example csr_null_description :
  convert_csr (VDict [("kind", VStr "csr"); ("name", VStr "mstatus");
                      ("description", VNone)]) = Raise AttributeError.
Proof. reflexivity. Qed.

(** X14: on a mapping, [convert_extension] returns a banner when the
    description (when present) is a string, whatever the name is, which is
    only formatted; it raises [AttributeError] when the description is null,
    a boolean, an integer, a sequence or a mapping. *)
Theorem extension_renders_or_raises (d : dict) :
  (is_str (entry_or d "description" (VStr EmptyString)) = true →
   ∃ text, convert_extension (VDict d) = Ok text)
  ∧ (non_text (entry_or d "description" (VStr EmptyString)) = true →
     convert_extension (VDict d) = Raise AttributeError).
Proof.
  unfold convert_extension, entry_or. cbn [py_get mbind result_bind].
  destruct (match dict_get "description" d with
            | Some x => x
            | None => VStr EmptyString
            end) as [| | |desc| |]; cbn [py_strip mbind result_bind is_str non_text];
    try (split; [intros [=] | reflexivity]).
  split; [eauto | intros [=]].
Qed.

Example extension_numeric_name :
  convert_extension (VDict [("kind", VStr "extension"); ("name", VInt 42)])
  = Ok (nl +:+ banner +:+ nl +:+ "// Extension: 42 - 42" +:+ nl +:+ "// " +:+ nl +:+
        banner +:+ nl).
Proof. reflexivity. Qed.

(** ** Skipped files *)


Example skipped_empty_document :
  process_udb_file {| file_path := "in/empty.yaml"; file_name := "empty.yaml";
                      file_load := Document VNone |}
  = (["Skipping in/empty.yaml: invalid format"], Ok None).
Proof. reflexivity. Qed.

Example skipped_parse_error :
  process_udb_file {| file_path := "in/broken.yaml"; file_name := "broken.yaml";
                      file_load := YAMLError "mapping values are not allowed here" |}
  = (["Error parsing in/broken.yaml: mapping values are not allowed here"], Ok None).
Proof. reflexivity. Qed.

(** ** The keys of an extracted encoding *)

Lemma insert_keys (m : encoding_map) (field k : string) (v : value) :
  is_Some (<[field := v]> m !! k) → is_Some (m !! k) ∨ k = field.
Proof.
  destruct (decide (k = field)) as [->|Hne]; [by right|].
  rewrite lookup_insert_ne by done. by left.
Qed.

Lemma extract_field_keys (opcodes : value) (m m' : encoding_map) (field k : string) :
  extract_field opcodes m field = Ok m' →
  is_Some (m' !! k) → is_Some (m !! k) ∨ k = field.
Proof.
  unfold extract_field. intros H.
  destruct (py_in field opcodes) as [[]|]; cbn [mbind result_bind] in H;
    [|injection H as <-; by left|discriminate].
  destruct (py_getitem opcodes field) as [x|]; cbn [mbind result_bind] in H;
    [|discriminate].
  destruct x as [| | |s|l|d]; try (injection H as <-; by left).
  - injection H as <-. apply insert_keys.
  - destruct (dict_has "value" d); [|injection H as <-; by left].
    destruct (py_getitem (VDict d) "value"); cbn [mbind result_bind] in H;
      [|discriminate].
    injection H as <-. apply insert_keys.
Qed.

Lemma foldM_extract_field_keys (opcodes : value) (fields : list string)
    (m m' : encoding_map) (k : string) :
  foldM (extract_field opcodes) m fields = Ok m' →
  is_Some (m' !! k) → is_Some (m !! k) ∨ k ∈ fields.
Proof.
  revert m. induction fields as [|field fields IH]; intros m; cbn [foldM].
  - intros [= <-]. by left.
  - destruct (extract_field opcodes m field) as [m1|] eqn:E;
      cbn [mbind result_bind]; [|discriminate].
    intros Hrest Hk. destruct (IH m1 Hrest Hk) as [H1|Hin].
    + destruct (extract_field_keys _ _ _ _ _ E H1) as [?| ->]; [by left|].
      right. apply list_elem_of_here.
    + right. by apply list_elem_of_further.
Qed.

Lemma extract_encoding_info_keys (format_data : value) (enc : encoding_map) (k : string) :
  extract_encoding_info format_data = Ok enc →
  is_Some (enc !! k) →
  k ∈ known_fields ∨ k = "match" ∨ k = "variables".
Proof.
  unfold extract_encoding_info. intros H.
  destruct (py_in "opcodes" format_data) as [has|]; cbn [mbind result_bind] in H;
    [|discriminate].
  set (first := if has
                then opcodes ← py_getitem format_data "opcodes";
                     foldM (extract_field opcodes) ∅
                       ["funct7"; "funct3"; "funct6"; "funct2"; "opcode"]
                else Ok ∅) in H.
  destruct first as [m0|] eqn:Hfirst; cbn [mbind result_bind] in H; [|discriminate].
  assert (Hm0 : ∀ k, is_Some (m0 !! k) → k ∈ known_fields).
  { intros k' Hk'. subst first. destruct has.
    - destruct (py_getitem format_data "opcodes") as [opcodes|];
        cbn [mbind result_bind] in Hfirst; [|discriminate].
      destruct (foldM_extract_field_keys _ _ _ _ _ Hfirst Hk') as [He|Hin].
      + rewrite lookup_empty in He. by destruct He.
      + by apply known_fields_order.
    - injection Hfirst as <-. rewrite lookup_empty in Hk'. by destruct Hk'. }
  clear Hfirst. intros Hk.
  destruct (py_in "encoding" format_data) as [[]|]; cbn [mbind result_bind] in H;
    [|injection H as <-; left; by apply Hm0|discriminate].
  destruct (py_getitem format_data "encoding") as [enc_data|];
    cbn [mbind result_bind] in H; [|discriminate].
  destruct (py_in "match" enc_data) as [has_match|]; cbn [mbind result_bind] in H;
    [|discriminate].
  set (second := if has_match
                 then mt ← py_getitem enc_data "match"; Ok (<["match" := mt]> m0)
                 else Ok m0) in H.
  destruct second as [m1|] eqn:Hsecond; cbn [mbind result_bind] in H; [|discriminate].
  assert (Hm1 : ∀ k, is_Some (m1 !! k) → k ∈ known_fields ∨ k = "match").
  { intros k' Hk'. subst second. destruct has_match.
    - destruct (py_getitem enc_data "match"); cbn [mbind result_bind] in Hsecond;
        [|discriminate].
      injection Hsecond as <-. apply insert_keys in Hk' as [?|?]; [left; auto|by right].
    - injection Hsecond as <-. left. auto. }
  clear Hsecond.
  destruct (py_in "variables" enc_data) as [[]|]; cbn [mbind result_bind] in H;
    [|injection H as <-; destruct (Hm1 k Hk); tauto|discriminate].
  destruct (py_getitem enc_data "variables"); cbn [mbind result_bind] in H;
    [|discriminate].
  injection H as <-. apply insert_keys in Hk as [Hk| ->]; [|tauto].
  destruct (Hm1 k Hk); tauto.
Qed.

(** X16: whatever the shape of the record, an encoding that the extractor
    returns, and the merged encoding used for rendering, hold no key other
    than the five opcode fields, [match] and [variables]: no other entry of
    [opcodes] or of an [encoding] section is ever carried over. *)
Theorem encoding_keys_closed (udb_data format_data : value) (enc merged : encoding_map)
    (k : string) :
  (extract_encoding_info format_data = Ok enc → is_Some (enc !! k) →
   k ∈ known_fields ∨ k = "match" ∨ k = "variables")
  ∧ (merged_encoding udb_data = Ok merged → is_Some (merged !! k) →
     k ∈ known_fields ∨ k = "match" ∨ k = "variables").
Proof.
  split; [apply extract_encoding_info_keys|].
  unfold merged_encoding. intros H Hk.
  destruct (py_get udb_data "format" (VDict [])) as [fmt|];
    cbn [mbind result_bind] in H; [|discriminate].
  destruct (extract_encoding_info fmt) as [base|] eqn:Hbase;
    cbn [mbind result_bind] in H; [|discriminate].
  destruct (py_in "encoding" udb_data) as [[]|]; cbn [mbind result_bind] in H;
    [|injection H as <-; by eapply extract_encoding_info_keys|discriminate].
  destruct (py_getitem udb_data "encoding") as [top|]; cbn [mbind result_bind] in H;
    [|discriminate].
  destruct (extract_encoding_info (VDict [("encoding", top)])) as [update|] eqn:Hup;
    cbn [mbind result_bind] in H; [|discriminate].
  injection H as <-. destruct Hk as [v Hv].
  apply lookup_union_Some_raw in Hv as [Hv|[_ Hv]].
  - apply (extract_encoding_info_keys _ update k Hup). by exists v.
  - apply (extract_encoding_info_keys _ base k Hbase). by exists v.
Qed.

Example encoding_drops_other_keys :
  (λ m : encoding_map, (m !! "width", m !! "mask", m !! "funct3", m !! "match"))
    <$> extract_encoding_info
          (VDict [("opcodes", VDict [("width", VStr "32"); ("funct3", VStr "0b010")]);
                  ("encoding", VDict [("mask", VStr "1111"); ("match", VStr "01--")])])
  = Ok (None, None, Some (VStr "0b010"), Some (VStr "01--")).
Proof. reflexivity. Qed.

(** ** The two modes of [main] *)

Lemma collect_lines (all_content : list string) (f : yaml_file) :
  (collect all_content f).1 = batch_lines f.
Proof.
  unfold collect, batch_lines.
  destruct (process_udb_file f) as [lines [[c|]|e]];
    unfold mbind, io_bind, print, returns, mret, io_ret; cbn [fst snd app];
    [|by rewrite app_nil_r|reflexivity].
  destruct (truthy (VStr c)); cbn [fst]; by rewrite app_nil_r.
Qed.

Lemma collect_pair (all_content : list string) (f : yaml_file) :
  collect all_content f
  = (batch_lines f,
     match (process_udb_file f).2 with
     | Ok _ => Ok (all_content ++ file_blocks f)
     | Raise e => Raise e
     end).
Proof.
  rewrite <- (collect_lines all_content f), <- collect_result.
  by destruct (collect all_content f).
Qed.

(** X17: a batch in which no file raises completes, whatever mixture of
    rendering files, parse failures, empty or non-mapping documents and
    unrecognized kinds it holds: every skipped file leaves only its one line,
    the content is the markers and blocks of the rendering files in order,
    and an artifact is written exactly when at least one file rendered. *)
Theorem batch_completes (files : list yaml_file) (output_file : string) :
  Forall (λ f, ∃ content, (process_udb_file f).2 = Ok content) files →
  main_dir files output_file
  = (flat_map batch_lines files ++
       [if rendered_count files =? 0 then "No content found"
        else "Generated " +:+ output_file +:+ " with " +:+
             str_of_Z (Z.of_nat (rendered_count files)) +:+ " items"],
     Ok (if rendered_count files =? 0 then None
         else Some (artifact_text (flat_map file_blocks files)))).
Proof.
  intros Hfiles.
  assert (Hfold : ∀ acc, io_foldM collect acc files
                         = (flat_map batch_lines files,
                            Ok (acc ++ flat_map file_blocks files))).
  { induction Hfiles as [|f files [content Hf] _ IH]; intros acc.
    - cbn. by rewrite app_nil_r.
    - cbn [io_foldM flat_map]. rewrite collect_pair, Hf.
      unfold mbind, io_bind. cbn [fst snd]. rewrite IH. cbn [fst snd].
      by rewrite <- app_assoc. }
  pose proof (length_file_blocks files) as Hlen.
  unfold main_dir. rewrite Hfold.
  unfold mbind, io_bind, print, returns, mret, io_ret. cbn [fst snd app].
  destruct (flat_map file_blocks files) as [|b bs] eqn:Hblocks.
  - cbn [length] in Hlen. replace (rendered_count files) with 0 by lia. reflexivity.
  - destruct (rendered_count files) as [|n] eqn:Hn; [discriminate Hlen|].
    cbn [Nat.eqb fst snd app]. unfold report.
    rewrite Hlen, (Nat.mul_comm 2 (S n)), Nat.div_mul by done. reflexivity.
Qed.

Lemma batch_completes_witness :
  main_dir [broken_file; add_file; bad_file] "out/RISCVGenerated.td"
  = (flat_map batch_lines [broken_file; add_file; bad_file] ++
       [if rendered_count [broken_file; add_file; bad_file] =? 0 then "No content found"
        else "Generated " +:+ "out/RISCVGenerated.td" +:+ " with " +:+
             str_of_Z (Z.of_nat (rendered_count [broken_file; add_file; bad_file])) +:+
             " items"],
     Ok (if rendered_count [broken_file; add_file; bad_file] =? 0 then None
         else Some (artifact_text (flat_map file_blocks [broken_file; add_file; bad_file])))).
Proof.
  apply (batch_completes [broken_file; add_file; bad_file] "out/RISCVGenerated.td").
  apply Forall_cons_2; [eexists; reflexivity|].
  apply Forall_cons_2; [eexists; reflexivity|].
  apply Forall_cons_2; [eexists; reflexivity|].
  apply Forall_nil_2.
Defined.

(** X18: a record that makes a renderer raise aborts the whole batch: the
    exception leaves [main], no artifact is written, not even for the files
    that rendered before it, and the files after it are never processed. *)
Theorem batch_aborts_on_exception (before after : list yaml_file) (f : yaml_file)
    (e : exn) (output_file : string) :
  Forall (λ g, ∃ content, (process_udb_file g).2 = Ok content) before →
  (process_udb_file f).2 = Raise e →
  main_dir (before ++ f :: after) output_file
  = (flat_map batch_lines before ++ batch_lines f, Raise e).
Proof.
  intros Hbefore Hf.
  assert (Hfold : ∀ acc, io_foldM collect acc (before ++ f :: after)
                         = (flat_map batch_lines before ++ batch_lines f, Raise e)).
  { induction Hbefore as [|g before [content Hg] _ IH]; intros acc.
    - cbn [app io_foldM flat_map]. rewrite collect_pair, Hf.
      unfold mbind, io_bind. cbn [fst snd]. reflexivity.
    - cbn [app io_foldM flat_map]. rewrite collect_pair, Hg.
      unfold mbind, io_bind. cbn [fst snd]. rewrite IH. cbn [fst snd].
      by rewrite <- app_assoc. }
  unfold main_dir. rewrite Hfold. reflexivity.
Qed.

Lemma batch_aborts_on_exception_witness :
  main_dir ([add_file] ++ odd_file :: [mstatus_file]) "out/RISCVGenerated.td"
  = (flat_map batch_lines [add_file] ++ batch_lines odd_file, Raise AttributeError).
Proof.
  apply (batch_aborts_on_exception [add_file] [mstatus_file] odd_file AttributeError).
  - apply Forall_cons_2; [eexists; reflexivity | apply Forall_nil_2].
  - reflexivity.
Defined.

Lemma append_assoc (s t u : string) : (s +:+ t) +:+ u = s +:+ t +:+ u.
Proof.
  induction s as [|c s IH]; [reflexivity|]. exact (f_equal (String c) IH).
Qed.

Lemma append_empty_r (s : string) : s +:+ EmptyString = s.
Proof.
  induction s as [|c s IH]; [reflexivity|]. exact (f_equal (String c) IH).
Qed.

(** X19: single-file mode writes the preamble directly followed by the
    block when the file renders, and nothing when the file is skipped; the
    directory artifact of the same file alone differs from it only by the
    origin marker line after the preamble and the line break at the end. *)
Theorem single_file_mode (f : yaml_file) (output_path output_file : string) :
  (∀ content, rendered f = Some content →
     main_file f output_path
     = (["Generated " +:+ output_path], Ok (Some (generate_tablegen_header +:+ content)))
     ∧ (main_dir [f] output_file).2
       = Ok (Some (generate_tablegen_header +:+ origin_marker f +:+ nl +:+
                   content +:+ nl)))
  ∧ ((process_udb_file f).2 = Ok None →
     main_file f output_path = ((process_udb_file f).1 ++ ["No content generated"], Ok None)
     ∧ (main_dir [f] output_file).2 = Ok None)
  ∧ (∀ e, (process_udb_file f).2 = Raise e →
     main_file f output_path = ((process_udb_file f).1, Raise e)).
Proof.
  split; [|split].
  - intros content Hr. destruct (rendered_process f content Hr) as (Hp & Ht & _).
    split.
    + unfold main_file. rewrite Hp.
      unfold mbind, io_bind, print, returns, mret, io_ret. cbn [fst snd app].
      by rewrite Ht.
    + unfold main_dir. cbn [io_foldM]. rewrite collect_pair, Hp.
      unfold file_blocks. rewrite Hr.
      unfold mbind, io_bind, print, returns, mret, io_ret. cbn [fst snd app].
      unfold artifact_text. cbn [map Str.concat].
      by rewrite !append_assoc, append_empty_r.
  - intros Hnone. split.
    + unfold main_file. destruct (process_udb_file f) as [lines r].
      cbn [snd] in Hnone. subst r. reflexivity.
    + unfold main_dir. cbn [io_foldM]. rewrite collect_pair, Hnone.
      assert (Hr : rendered f = None) by (unfold rendered; by rewrite Hnone).
      unfold file_blocks. rewrite Hr. reflexivity.
  - intros e He. unfold main_file. destruct (process_udb_file f) as [lines r].
    cbn [snd] in He. subst r. reflexivity.
Qed.

Example single_file_scenario :
  main_file add_file "out/add.td"
  = (["Generated out/add.td"],
     Ok (Some (generate_tablegen_header +:+
               instruction_block "ADD" "GPR:$rd" "GPR:$rs1, GPR:$rs2" "add"
                 "$rd, $rs1, $rs2" "add" EmptyString "R" EmptyString)))
  ∧ main_file bad_file "out/bad.td"
    = (["Skipping in/bad.yaml: unknown kind 'unknown_kind'"; "No content generated"],
       Ok None).
Proof. split; reflexivity. Qed.

(** ** The constraints block and the instruction renderer as a whole *)

Lemma length_field_constraint (encoding : encoding_map) (field : string) :
  length (field_constraint encoding field) ≤ 1.
Proof.
  unfold field_constraint.
  destruct (encoding !! field) as [[| | |v| |]|]; cbn [length]; try lia.
  destruct (Str.startswith v "0b"); cbn [length]; lia.
Qed.

Lemma variable_constraint_dict (d : dict) :
  ∃ l, variable_constraint (VDict d) = Ok l ∧ length l ≤ 1.
Proof.
  unfold variable_constraint. cbn [py_get mbind result_bind].
  destruct (truthy _ && truthy _); eexists; (split; [reflexivity|]); cbn [length]; lia.
Qed.

Lemma variable_constraints_dicts (vars : list value) :
  Forall (λ var, is_dict var = true) vars →
  ∃ ls, mapM variable_constraint vars = Ok ls ∧ length (concat ls) ≤ length vars.
Proof.
  induction 1 as [|var vars Hvar _ (ls & Hls & Hlen)]; [by exists []|].
  destruct var as [| | | | |d]; try discriminate Hvar.
  destruct (variable_constraint_dict d) as (l & Hl & Hone).
  cbn [mapM]. rewrite Hl. cbn [mbind result_bind]. rewrite Hls. cbn [mbind result_bind].
  eexists. split; [reflexivity|]. cbn [concat]. rewrite length_app. cbn [length]. lia.
Qed.

(** X20: when the merged encoding has no [variables], or has a list of
    mappings there, the constraints block can be built and holds at most one
    pattern line, one line for each of the five opcode fields and one line
    for each variable. *)
Theorem constraints_bounded (encoding : encoding_map) (vars : list value) :
  encoding !! "variables" = None ∧ vars = []
  ∨ encoding !! "variables" = Some (VList vars) ∧ Forall (λ var, is_dict var = true) vars →
  ∃ constraints,
    constraint_lines encoding = Ok constraints
    ∧ length constraints ≤ 6 + length vars.
Proof.
  intros Hvars. unfold constraint_lines.
  assert (Hfields : length (flat_map (field_constraint encoding)
                              ["opcode"; "funct3"; "funct7"; "funct6"; "funct2"]) ≤ 5).
  { cbn [flat_map]. rewrite !length_app. cbn [length].
    pose proof (length_field_constraint encoding "opcode").
    pose proof (length_field_constraint encoding "funct3").
    pose proof (length_field_constraint encoding "funct7").
    pose proof (length_field_constraint encoding "funct6").
    pose proof (length_field_constraint encoding "funct2"). lia. }
  assert (Hpattern : length (match encoding !! "match" with
                             | Some m => ["  let EncodingPattern = " +:+ dq +:+ py_str m
                                          +:+ dq +:+ ";"]
                             | None => []
                             end) ≤ 1).
  { destruct (encoding !! "match"); cbn [length]; lia. }
  destruct Hvars as [[-> ->]|[-> Hdicts]].
  - cbn [mbind result_bind]. eexists. split; [reflexivity|].
    rewrite !length_app. cbn [length]. lia.
  - cbn [py_iter mbind result_bind].
    destruct (variable_constraints_dicts vars Hdicts) as (ls & -> & Hlen).
    cbn [mbind result_bind]. eexists. split; [reflexivity|].
    rewrite !length_app. lia.
Qed.

Lemma constraints_bounded_witness :
  ∃ constraints,
    constraint_lines
      (<["variables" := VList [VDict [("name", VStr "xd"); ("location", VStr "11-7")]]]>
         (<["opcode" := VStr "0b01"]> (∅ : encoding_map)))
    = Ok constraints
    ∧ length constraints
      ≤ 6 + length [VDict [("name", VStr "xd"); ("location", VStr "11-7")]].
Proof.
  apply (constraints_bounded _ [VDict [("name", VStr "xd"); ("location", VStr "11-7")]]).
  right. split; [reflexivity|]. apply Forall_cons_2; [reflexivity|apply Forall_nil_2].
Defined.

Example constraints_of_encoded_record :
  (merged_encoding add_record_encoded ≫= constraint_lines)
  = Ok ["  let EncodingPattern = " +:+ dq +:+ "1001----------10" +:+ dq +:+ ";";
        "  let Opcode = 0b01;";
        "  let Funct3 = 0b000;";
        "  // Variable xd at bits 11-7"].
Proof. reflexivity. Qed.

(** A sequence of variables that holds something else than mappings makes
    the renderer raise. *)
Example constraints_of_string_variables :
  constraint_lines (<["variables" := VStr "xd"]> (∅ : encoding_map))
  = Raise AttributeError.
Proof. reflexivity. Qed.

(** X21: the instruction renderer has no failure of its own beyond its
    stages: on a mapping whose name, description and assembly entries are
    strings (or absent), it returns a block whenever the classifier, the
    extraction of the merged encoding and the constraints block return. *)
Theorem instruction_renders (d : dict) (f : family) (encoding : encoding_map)
    (constraints : list string) :
  is_str (entry_or d "name" (VStr "unknown")) = true →
  is_str (entry_or d "description" (VStr EmptyString)) = true →
  is_str (entry_or d "assembly" (VStr EmptyString)) = true →
  get_instruction_format (VDict d) = Ok f →
  merged_encoding (VDict d) = Ok encoding →
  constraint_lines encoding = Ok constraints →
  ∃ text, convert_instruction (VDict d) = Ok text.
Proof.
  unfold entry_or. intros Hname Hdesc Hasm Hfam Henc Hcons.
  unfold convert_instruction. cbn [py_get mbind result_bind].
  destruct (match dict_get "description" d with
            | Some x => x
            | None => VStr EmptyString
            end) as [| | |desc| |]; try discriminate Hdesc.
  cbn [py_strip mbind result_bind]. rewrite Hfam. cbn [mbind result_bind].
  rewrite Henc. cbn [mbind result_bind].
  destruct (match dict_get "assembly" d with
            | Some x => x
            | None => VStr EmptyString
            end) as [| | |asm| |] eqn:Easm; try discriminate Hasm.
  destruct (parse_string_returns asm f) as [parsed Hparse]. rewrite Hparse.
  cbn [mbind result_bind].
  destruct (asm_names_exist _ _ _ Hparse) as (out_parts & in_parts & Hout & Hin).
  destruct (default_operands f parsed) as [output inp]. cbn [fst snd] in Hout, Hin.
  rewrite Hout. cbn [mbind result_bind]. rewrite Hin. cbn [mbind result_bind].
  rewrite Hcons. cbn [mbind result_bind].
  destruct (match dict_get "name" d with
            | Some x => x
            | None => VStr "unknown"
            end) as [| | |name| |]; try discriminate Hname.
  cbn [tablegen_name py_upper mbind result_bind]. eauto.
Qed.

Lemma instruction_renders_witness : ∃ text, convert_instruction add_record_encoded = Ok text.
Proof.
  eapply (instruction_renders _ FR); reflexivity.
Defined.
